(** * lab_3.py: the VHI dataset pipeline of class [VHIAnalysis]

    A shallow embedding of the data handling of [src/lab_3.py]:
    the file naming of [load_data], the per-file parser [process_csv],
    the dataset builder [data_frame] and the query [filter_data].

    Conventions of the embedding.
    - A Python [str] is a [string]. The texts that are split, sliced or
      converted (file names, year and week fields) are ASCII, one [ascii]
      per character; the names of the regions are only compared.
    - A pandas cell is a [cell]: a [str], a finite number or [NaN].
      Finite numbers are canonical rationals ([Qc]): the code compares and
      truncates them, nothing else, and every finite float64 is a rational.
    - A [DataFrame] is the list of its rows, each with its index label.
      Where the code depends on the dtype of a column it is read off the
      cells: a column that holds a [str] is of dtype object, any other is
      numeric. Integers that pandas stores are [int64].
    - A call that raises returns [Raise e]; calls are sequenced as in the
      source, so the first exception is the outcome.
    - What [pd.read_csv] makes of a file is part of the input. The routine
      behind [DataFrame.sort_values] is a parameter of [filter_data]. *)

From Stdlib Require Import QArith Qcanon Ascii String.
From stdpp Require Import base numbers option list strings pretty gmap fin_maps.

Local Open Scope string_scope.
Local Open Scope list_scope.
Local Open Scope Z_scope.

(** ** Exceptions and the error monad *)

Inductive exn : Set :=
| IndexError | KeyError | ValueError | TypeError | ParserError | OverflowError.

Inductive result (A : Type) : Type :=
| Ok (a : A)
| Raise (e : exn).
Arguments Ok {A} a.
Arguments Raise {A} e.

(** Sequencing: [x ← m; k] runs [k] on the value of [m], and an exception
    raised by [m] propagates. *)
#[global] Instance result_ret : MRet result := λ A a, Ok a.
#[global] Instance result_bind : MBind result := λ A B k m,
  match m with
  | Ok a => k a
  | Raise e => Raise e
  end.

(** [[f(x) for x in l]]: the first raising call aborts the comprehension. *)
Fixpoint comprehension {A B} (f : A → result B) (l : list A) : result (list B) :=
  match l with
  | [] => Ok []
  | x :: l' => y ← f x ; ys ← comprehension f l' ; Ok (y :: ys)
  end.

Definition is_Ok {A} (m : result A) : Prop := ∃ a, m = Ok a.

#[global] Instance exn_eq_dec : EqDecision exn.
Proof. solve_decision. Defined.

#[global] Instance result_eq_dec `{EqDecision A} : EqDecision (result A).
Proof. solve_decision. Defined.

(** ** Python string primitives *)

Module Py.

(** [s.split(sep)] for a one-character separator: every occurrence cuts,
    empty segments are kept. *)
Fixpoint split (sep : ascii) (s : string) : list string :=
  match s with
  | EmptyString => [EmptyString]
  | String c s' =>
      if Ascii.eqb c sep then EmptyString :: split sep s'
      else match split sep s' with
           | seg :: rest => String c seg :: rest
           | [] => [String c EmptyString]
           end
  end.

(** [l[i]] for [i >= 0]. *)
Definition getitem {A} (l : list A) (i : nat) : result A :=
  match l !! i with
  | Some x => Ok x
  | None => Raise IndexError
  end.

(** [s[n:]] *)
Fixpoint slice_from (n : nat) (s : string) : string :=
  match n, s with
  | O, _ => s
  | S n', String _ s' => slice_from n' s'
  | S _, EmptyString => EmptyString
  end.

(** [s.startswith(p)] *)
Definition startswith (p s : string) : bool := String.prefix p s.

(** White space that [int()] skips at both ends of an ASCII text: TAB..CR
    and the blank. *)
Definition isspace (c : ascii) : bool :=
  let n := N_of_ascii c in
  ((9 <=? n) && (n <=? 13) || (n =? 32))%N.

Definition digit (c : ascii) : option Z :=
  let n := N_of_ascii c in
  if ((48 <=? n) && (n <=? 57))%N then Some (Z.of_N n - 48) else None.

Fixpoint lstrip (s : string) : string :=
  match s with
  | String c s' => if isspace c then lstrip s' else s
  | EmptyString => EmptyString
  end.

Definition strip (s : string) : string :=
  String.rev (lstrip (String.rev (lstrip s))).

(** The digits of a decimal literal, read left to right. [acc] is the value
    so far, [after_digit] tells whether the previous character was a digit:
    an underscore is accepted only between two digits. *)
Fixpoint digits (acc : Z) (after_digit : bool) (s : string) : option Z :=
  match s with
  | EmptyString => if after_digit then Some acc else None
  | String c s' =>
      match digit c with
      | Some d => digits (10 * acc + d) true s'
      | None =>
          if Ascii.eqb c "_" && after_digit
          then match s' with
               | EmptyString => None
               | _ => digits acc false s'
               end
          else None
      end
  end.

(** [int(s)] in base 10. *)
Definition int (s : string) : result Z :=
  let unsigned t := match digits 0 false t with
                    | Some z => Ok z
                    | None => Raise ValueError
                    end in
  match strip s with
  | String "-" t => z ← unsigned t ; Ok (- z)
  | String "+" t => unsigned t
  | t => unsigned t
  end.

(** [os.path.basename(p)]: what follows the last slash. *)
Definition basename (p : string) : string :=
  List.last (split "/" p) EmptyString.

End Py.

(** ** Cells, rows and frames *)

(** A value held by a pandas cell. *)
Inductive cell : Type :=
| Str (s : string)      (* a Python [str] of an object column *)
| Num (q : Qc)          (* a finite int64 or float64 *)
| NaN.                  (* the missing value *)

#[global] Instance cell_eq_dec : EqDecision cell.
Proof. solve_decision. Defined.

(** An integer as a cell. *)
Definition Int (z : Z) : cell := Num (Qc_of_Z z).

(** [x != y] between a cell and a number: only an equal number is equal. *)
Definition cell_ne (c : cell) (q : Qc) : bool :=
  match c with
  | Num q' => negb (bool_decide (q' = q))
  | Str _ | NaN => true
  end.

Definition is_str (c : cell) : bool :=
  match c with Str _ => true | _ => false end.

(** The range of [int64], the dtype that [astype(int)] converts to and that
    a column of Python ints gets when they fit. *)
Definition in_int64 (z : Z) : bool := (- 2 ^ 63 <=? z) && (z <? 2 ^ 63).

(** One cell through [Series.astype(int)]. A number (a float64 of a numeric
    column) is truncated toward zero, and out of the range of [int64] the
    cast gives the smallest [int64]; a string (of an object column) goes
    through [int()], and a value that does not fit [int64] is an
    [OverflowError]; [NaN] raises [ValueError] in either column. *)
Definition cell_to_int (c : cell) : result Z :=
  match c with
  | Num q =>
      let z := Z.quot (Qnum q) (Z.pos (Qden q)) in
      Ok (if in_int64 z then z else - 2 ^ 63)
  | Str s =>
      z ← Py.int s;
      if in_int64 z then Ok z else Raise OverflowError
  | NaN => Raise ValueError
  end.

(** [self.columns] *)
Definition columns : list string :=
  ["Year"; "Week"; "SMN"; "SMT"; "VCI"; "TCI"; "VHI"; "empty"].

(** A row as [pd.read_csv(..., names=self.columns)] delivers it. *)
Module Raw.
Record row : Type := mk {
  Year : cell; Week : cell; SMN : cell; SMT : cell;
  VCI : cell; TCI : cell; VHI : cell; empty : cell }.

Definition set_Year (y : cell) (r : row) : row :=
  mk y (Week r) (SMN r) (SMT r) (VCI r) (TCI r) (VHI r) (empty r).
End Raw.

(** A row of the frames that [process_csv] and [data_frame] return:
    ['empty'] dropped, ['region_num'] inserted in front. *)
Record row : Type := mk_row {
  region_num : Z;
  Year : cell; Week : cell; SMN : cell; SMT : cell;
  VCI : cell; TCI : cell; VHI : cell }.

#[global] Instance row_eq_dec : EqDecision row.
Proof. solve_decision. Defined.

(** A [DataFrame]: rows in order, each with its index label. *)
Abbreviation frame R := (list (nat * R)).

(** The [RangeIndex] a freshly read frame carries. *)
Definition range_index {R} (rows : list R) : frame R :=
  imap (λ i r, (i, r)) rows.

(** [df.at[label, col]] *)
Definition at_ {R} (df : frame R) (label : nat) (col : R → cell) : result cell :=
  match list_find (λ ir, ir.1 = label) df with
  | Some (_, (_, r)) => Ok (col r)
  | None => Raise KeyError
  end.

(** [df.at[label, col] = v], with [set_col] the update of that column. *)
Definition set_at {R} (df : frame R) (label : nat) (set_col : R → R) : frame R :=
  (λ ir : nat * R, if decide (ir.1 = label) then (ir.1, set_col ir.2) else ir) <$> df.

(** [df.index[-1]] *)
Definition index_last {R} (df : frame R) : result nat :=
  match List.last (Some <$> df.*1) None with
  | Some label => Ok label
  | None => Raise IndexError
  end.

(** [df.drop(label)]: the rows carrying the label go. *)
Definition drop {R} (label : nat) (df : frame R) : frame R :=
  filter (λ ir, ir.1 ≠ label) df.

(** A column-wise change: every row through [f], labels kept. *)
Definition on_rows {R R'} (f : R → R') (df : frame R) : frame R' :=
  (λ ir : nat * R, (ir.1, f ir.2)) <$> df.

(** [df[mask]] for a mask computed row by row. *)
Definition select {R} (keep : R → bool) (df : frame R) : frame R :=
  filter (λ ir, keep ir.2 = true) df.

(** [pd.concat(frames)]: an empty list of frames is refused. The rows are
    taken over as they are, which is what pandas does when the [region_num]
    columns all have the dtype [int64], that is when the ids of the files
    fit it; the statements that need the ids as the files carry them assume
    that they do. *)
Definition concat {R} (frames : list (frame R)) : result (frame R) :=
  match frames with
  | [] => Raise ValueError
  | _ => Ok (List.concat frames)
  end.

(** [df.drop_duplicates()]: a row equal in every column to an earlier one
    goes; the index plays no part. [seen] are the rows met so far. *)
Fixpoint drop_duplicates_from `{EqDecision R} (seen : list R) (df : frame R)
  : frame R :=
  match df with
  | [] => []
  | (i, r) :: df' =>
      if decide (r ∈ seen) then drop_duplicates_from seen df'
      else (i, r) :: drop_duplicates_from (r :: seen) df'
  end.

Definition drop_duplicates `{EqDecision R} (df : frame R) : frame R :=
  drop_duplicates_from [] df.

(** [df.reset_index(drop=True)] *)
Definition reset_index {R} (df : frame R) : frame R :=
  range_index df.*2.

(** [x in values], as [Series.isin] tests each cell. *)
Definition isin (x : Z) (values : list Z) : bool := bool_decide (x ∈ values).

(** [Series.replace(d)]: a key of [d] becomes its value, anything else stays.
    All keys are matched against the original cell, not against a result. *)
Definition replace (d : gmap Z Z) (x : Z) : Z := default x (d !! x).

(** ** The tables of [VHIAnalysis] *)

Definition regions_true_id : gmap Z string := list_to_map [
  (1, "Вінницька"); (2, "Волинська"); (3, "Дніпропетровська"); (4, "Донецька");
  (5, "Житомирська"); (6, "Закарпатська"); (7, "Запорізька");
  (8, "Івано-Франківська"); (9, "Київська"); (10, "Кіровоградська");
  (11, "Луганська"); (12, "Львівська"); (13, "Миколаївська"); (14, "Одеська");
  (15, "Полтавська"); (16, "Рівненська"); (17, "Сумська"); (18, "Тернопільська");
  (19, "Харківська"); (20, "Херсонська"); (21, "Хмельницька"); (22, "Черкаська");
  (23, "Чернівецька"); (24, "Чернігівська"); (25, "Республіка Крим") ].

(** [{v: k for k, v in self.regions_true_id.items()}] *)
Definition region_names_to_id : gmap string Z :=
  map_fold (λ k v acc, <[v := k]> acc) ∅ regions_true_id.

Definition region_translation : gmap Z Z := list_to_map [
  (1, 22); (2, 24); (3, 23); (4, 25); (5, 3); (6, 4); (7, 8); (8, 19); (9, 20);
  (10, 21); (11, 9); (13, 10); (14, 11); (15, 12); (16, 13); (17, 14); (18, 15);
  (19, 16); (21, 17); (22, 18); (23, 6); (24, 1); (25, 2); (26, 6); (27, 5) ].

(** ** [load_data]: the name of the stored file *)

(** What [datetime.datetime.now()] is read for. *)
Record datetime : Type := {
  year : N; month : N; day : N; hour : N; minute : N }.

Fixpoint zeros (k : nat) : string :=
  match k with
  | O => EmptyString
  | S k' => String "0" (zeros k')
  end.

(** A decimal number on at least [width] digits, zeros in front. *)
Definition zero_pad (width : nat) (n : N) : string :=
  let digits := pretty n in
  zeros (width - String.length digits) +:+ digits.

(** [now.strftime('%Y-%m-%d_%H-%M')] *)
Definition strftime (now : datetime) : string :=
  zero_pad 4 (year now) +:+ "-" +:+ zero_pad 2 (month now) +:+ "-" +:+
  zero_pad 2 (day now) +:+ "_" +:+ zero_pad 2 (hour now) +:+ "-" +:+
  zero_pad 2 (minute now).

(** [f'vhi_id__{province_code}__{current_date}.csv'] *)
Definition file_name (province_code : Z) (current_date : string) : string :=
  "vhi_id__" +:+ pretty province_code +:+ "__" +:+ current_date +:+ ".csv".

(** The path under which [glob.glob(f"{self.base_folder}/*.csv")] lists a
    file of the folder, the one [os.path.join] also builds in [load_data]. *)
Definition path_join (base_folder file_name : string) : string :=
  base_folder +:+ "/" +:+ file_name.

(** The test of [load_data] for an earlier download of the province, on
    the listing of [base_folder]: names and what the files hold. *)
Definition files_in_folder (folder : list (string * string)) (province_code : Z)
  : list string :=
  filter (λ f, Py.startswith ("vhi_id__" +:+ pretty province_code +:+ "__") f = true)
         folder.*1.

(** [load_data]: nothing is stored when a file of the province is there or
    when the download fails ([response] is [None]); otherwise the bytes
    received are written under the new name. *)
Definition load_data (folder : list (string * string)) (province_code : Z)
    (now : datetime) (response : option string) : list (string * string) :=
  match files_in_folder folder province_code with
  | _ :: _ => folder
  | [] => match response with
          | Some data => folder ++ [(file_name province_code (strftime now), data)]
          | None => folder
          end
  end.

(** ** [data_frame] *)

(** A file found by [glob]: its path and what [pd.read_csv] makes of it
    ([header=1, names=self.columns]), the rows below the header or the
    parser's exception. *)
Record csv_file : Type := {
  file_path : string;
  read_csv : result (list Raw.row) }.

(** [int(filename.split('_')[2])] *)
Definition region_of (file_path : string) : result Z :=
  let filename := Py.basename file_path in
  seg ← Py.getitem (Py.split "_" filename) 2;
  Py.int seg.

(** [x[9:]] on the value [x] that [data.at[0, 'Year']] delivers, [column]
    being the Year column. A string is sliced. Anything else cannot be
    sliced: in a column that holds a string (dtype object) it is a Python
    float or int and the failure is [TypeError]; in a numeric column it is a
    numpy scalar and the failure is [IndexError]. *)
Definition slice9 (column : list cell) (c : cell) : result cell :=
  match c with
  | Str s => Ok (Str (Py.slice_from 9 s))
  | Num _ | NaN =>
      if existsb is_str column then Raise TypeError else Raise IndexError
  end.

(** [drop(columns=['empty'])] and [insert(0, 'region_num', region_num)] *)
Definition insert_region (region_num : Z) (r : Raw.row) : row :=
  mk_row region_num (Raw.Year r) (Raw.Week r) (Raw.SMN r) (Raw.SMT r)
         (Raw.VCI r) (Raw.TCI r) (Raw.VHI r).

Definition set_Week (w : cell) (r : row) : row :=
  mk_row (region_num r) (Year r) w (SMN r) (SMT r) (VCI r) (TCI r) (VHI r).

(** [data['Week'] = data['Week'].astype(int)] *)
Definition astype_int_Week (df : frame row) : result (frame row) :=
  comprehension (λ ir : nat * row,
    w ← cell_to_int (Week ir.2); Ok (ir.1, set_Week (Int w) ir.2)) df.

Definition process_csv (file : csv_file) : result (frame row) :=
  region_num ← region_of (file_path file);
  rows ← read_csv file;
  let data := range_index rows in
  year0 ← at_ data 0 Raw.Year;
  year0 ← slice9 (Raw.Year <$> rows) year0;
  let data := set_at data 0 (Raw.set_Year year0) in
  last_label ← index_last data;
  let data := drop last_label data in
  let data := select (λ r, cell_ne (Raw.VHI r) (Qc_of_Z (-1))) data in
  let data := on_rows (insert_region region_num) data in
  astype_int_Week data.

(** [region_num] replaced through [region_translation]. *)
Definition translate (r : row) : row :=
  mk_row (replace region_translation (region_num r))
         (Year r) (Week r) (SMN r) (SMT r) (VCI r) (TCI r) (VHI r).

(** The rows of all files before the translation: concatenated, duplicates
    dropped, reindexed, local ids 12 and 20 filtered out. *)
Definition combined_data (data_frames : list (frame row)) : result (frame row) :=
  combined ← concat data_frames;
  let combined := reset_index (drop_duplicates combined) in
  Ok (select (λ r, negb (isin (region_num r) [12; 20])) combined).

Definition data_frame (csv_files : list csv_file) : result (frame row) :=
  data_frames ← comprehension process_csv csv_files;
  combined ← combined_data data_frames;
  Ok (on_rows translate combined).

(** ** [filter_data] *)

(** [Series.between(left, right)] on one cell, bounds included. Ordering a
    [str] against an [int] raises; [NaN] is within no interval. *)
Definition between (c : cell) (left right : Z) : result bool :=
  match c with
  | Num q => Ok (bool_decide (Qc_of_Z left ≤ q)%Qc && bool_decide (q ≤ Qc_of_Z right)%Qc)
  | NaN => Ok false
  | Str _ => Raise TypeError
  end.

(** [df[name]] for the columns of the dataset. *)
Definition column (name : string) : result (row → cell) :=
  if decide (name = "region_num") then Ok (λ r, Int (region_num r))
  else if decide (name = "Year") then Ok Year
  else if decide (name = "Week") then Ok Week
  else if decide (name = "SMN") then Ok SMN
  else if decide (name = "SMT") then Ok SMT
  else if decide (name = "VCI") then Ok VCI
  else if decide (name = "TCI") then Ok TCI
  else if decide (name = "VHI") then Ok VHI
  else Raise KeyError.

(** [df[m]] for a boolean column [m]. *)
Definition boolean_mask {R} (m : list bool) (df : frame R) : frame R :=
  (filter (λ bir : bool * (nat * R), bir.1 = true) (zip m df)).*2.

Section Query.

(** [DataFrame.sort_values(by=..., ascending=...)] with its default
    [kind]: which algorithm orders the rows is pandas' and numpy's
    business, so the routine is a parameter. *)
Variable sort_values : (row → cell) → bool → frame row → result (frame row).

Definition filter_data (df : frame row) (years_interval weeks_interval : Z * Z)
    (region sort_option parameter : string) : result (frame row) :=
  let region_num_selected := region_names_to_id !! region in
  in_years ← comprehension
    (λ ir : nat * row, between (Year ir.2) years_interval.1 years_interval.2) df;
  in_weeks ← comprehension
    (λ ir : nat * row, between (Week ir.2) weeks_interval.1 weeks_interval.2) df;
  let is_region :=
    (λ ir : nat * row, bool_decide (Some (region_num ir.2) = region_num_selected))
      <$> df in
  let filtered_data :=
    boolean_mask (zip_with andb (zip_with andb in_years in_weeks) is_region) df in
  if decide (sort_option = "За зростанням") then
    by_ ← column parameter; sort_values by_ true filtered_data
  else if decide (sort_option = "За спаданням") then
    by_ ← column parameter; sort_values by_ false filtered_data
  else Ok filtered_data.

End Query.

(** The filtering predicate of [filter_data] on one row. *)
Definition matches (years_interval weeks_interval : Z * Z) (region : string)
    (r : row) : Prop :=
  between (Year r) years_interval.1 years_interval.2 = Ok true ∧
  between (Week r) weeks_interval.1 weeks_interval.2 = Ok true ∧
  region_names_to_id !! region = Some (region_num r).

(** *** One sorting routine

    An insertion sort on the key column, for numeric keys with [NaN] placed
    last in either direction. It stands in for the library routine where a
    concrete one is needed. *)

Definition key_le (ascending : bool) (a b : cell) : bool :=
  match a, b with
  | _, NaN => true
  | NaN, _ => false
  | Num x, Num y => if ascending then bool_decide (x ≤ y)%Qc else bool_decide (y ≤ x)%Qc
  | _, _ => true
  end.

Fixpoint insert_by (by_ : row → cell) (ascending : bool) (x : nat * row)
    (sorted : frame row) : frame row :=
  match sorted with
  | [] => [x]
  | y :: sorted' =>
      if key_le ascending (by_ x.2) (by_ y.2) then x :: sorted
      else y :: insert_by by_ ascending x sorted'
  end.

Definition insertion_sort_values (by_ : row → cell) (ascending : bool)
    (df : frame row) : result (frame row) :=
  if existsb (λ ir : nat * row, is_str (by_ ir.2)) df then Raise TypeError
  else Ok (foldr (insert_by by_ ascending) [] df).

(** ** [plot_comparison_chart] and [run_analysis]: the data they select *)

(** The [subset] of [plot_comparison_chart]: the rows of the region within
    the years, whatever the week. The grouping by year, the mean (a
    floating-point sum) and the drawing are left out. *)
Definition comparison_subset (df : frame row) (region : string)
    (years_interval : Z * Z) : result (frame row) :=
  let region_num_ := region_names_to_id !! region in
  let is_region :=
    (λ ir : nat * row, bool_decide (Some (region_num ir.2) = region_num_)) <$> df in
  in_years ← comprehension
    (λ ir : nat * row, between (Year ir.2) years_interval.1 years_interval.2) df;
  Ok (boolean_mask (zip_with andb is_region in_years) df).

Definition set_Year (y : cell) (r : row) : row :=
  mk_row (region_num r) y (Week r) (SMN r) (SMT r) (VCI r) (TCI r) (VHI r).

Section Prepare.

(** The number [pd.to_numeric] reads in a [str], if it reads one: the
    parser is pandas', so it is a parameter. *)
Variable to_number : string → option Qc.

(** [pd.to_numeric(..., errors='coerce')] on one cell: a string without a
    number becomes [NaN], a number stays. *)
Definition to_numeric_coerce (c : cell) : cell :=
  match c with
  | Str s => match to_number s with
             | Some n => Num n
             | None => NaN
             end
  | Num _ | NaN => c
  end.

(** The first lines of [run_analysis] on the frame of [data_frame]:
    [df['Year'] = pd.to_numeric(df['Year'], errors='coerce')], then
    [df.dropna(subset=['Year'])]. *)
Definition numeric_years (df : frame row) : frame row :=
  filter (λ ir : nat * row, Year ir.2 ≠ NaN)
         (on_rows (λ r, set_Year (to_numeric_coerce (Year r)) r) df).

End Prepare.

(** ** Notions used in the statements *)

(** No occurrence of [c] in [s]. *)
Fixpoint free_of (c : ascii) (s : string) : bool :=
  match s with
  | EmptyString => true
  | String c' s' => negb (Ascii.eqb c' c) && free_of c s'
  end.


(** A row of the file as [process_csv] hands it back: the region in front,
    the week as an integer, the year cut when the row is the first. *)
Definition processed (n : Z) (i : nat) (raw : Raw.row) (w : Z) : row :=
  mk_row n
    (if decide (i = 0%nat) then
       match Raw.Year raw with Str s => Str (Py.slice_from 9 s) | y => y end
     else Raw.Year raw)
    (Int w) (Raw.SMN raw) (Raw.SMT raw) (Raw.VCI raw) (Raw.TCI raw) (Raw.VHI raw).

(** The frame [process_csv] holds before it converts the weeks, for a file
    of region [n] whose rows are [rows] and whose first year is the string
    [s]: first year cut, last row and rows without data dropped, region in
    front. *)
Definition kept_rows (n : Z) (s : string) (rows : list Raw.row) : frame row :=
  on_rows (insert_region n)
    (select (λ r, cell_ne (Raw.VHI r) (Qc_of_Z (-1)))
       (drop (length rows - 1)%nat
          (set_at (range_index rows) 0 (Raw.set_Year (Str (Py.slice_from 9 s)))))).

(** [between] on a cell that is no string. *)
Definition within (c : cell) (left right : Z) : bool :=
  match c with
  | Num q => bool_decide (Qc_of_Z left ≤ q)%Qc && bool_decide (q ≤ Qc_of_Z right)%Qc
  | _ => false
  end.

(** The mask of [filter_data] on one row with numeric year and week. *)
Definition selected (years_interval weeks_interval : Z * Z) (region : string)
    (r : row) : bool :=
  within (Year r) years_interval.1 years_interval.2 &&
  within (Week r) weeks_interval.1 weeks_interval.2 &&
  bool_decide (Some (region_num r) = region_names_to_id !! region).

(** ** Sample files *)

Definition q (n : Z) (d : positive) : cell := Num (Q2Qc (Qmake n d)).

(** Rows in the layout the parser is written for: the first year behind the
    nine characters [<tt><pre>], a week without data (VHI -1), a footer
    line as last row. *)
Definition sample_tail : list Raw.row := [
  Raw.mk (Str "1982") (Int 2) (q 63 1000) (q 26100 100) (q 4680 100)
         (q 4627 100) (Int (-1)) NaN;
  Raw.mk (Str "1982") (Int 3) (q 61 1000) (q 25911 100) (q 4402 100)
         (q 4740 100) (q 4571 100) NaN;
  Raw.mk (Str "</pre></tt>") NaN NaN NaN NaN NaN NaN NaN ].

Definition sample_first (year0 : string) : Raw.row :=
  Raw.mk (Str year0) (Int 1) (q 59 1000) (q 25824 100) (q 5111 100)
         (q 4878 100) (q 4995 100) NaN.

Definition sample_rows : list Raw.row :=
  sample_first "<tt><pre>1982" :: sample_tail.

Definition sample_file (name : string) : csv_file :=
  {| file_path := "data_csv/" +:+ name; read_csv := Ok sample_rows |}.

(** The two rows [process_csv] keeps of a sample file of region [n]. *)
Definition sample_kept_first (n : Z) (year0 : string) : row :=
  mk_row n (Str year0) (Int 1) (q 59 1000) (q 25824 100) (q 5111 100)
         (q 4878 100) (q 4995 100).

Definition sample_kept_third (n : Z) : row :=
  mk_row n (Str "1982") (Int 3) (q 61 1000) (q 25911 100) (q 4402 100)
         (q 4740 100) (q 4571 100).

Definition sample_kept (n : Z) : list row :=
  [sample_kept_first n "1982"; sample_kept_third n].

Definition file_15 : csv_file := sample_file "vhi_id_15_2025-03-01_10-00.csv".
Definition file_23 : csv_file := sample_file "vhi_id_23_2025-03-01_10-00.csv".
Definition file_23_again : csv_file := sample_file "vhi_id_23_2025-03-02_18-30.csv".
Definition file_12 : csv_file := sample_file "vhi_id_12_2025-03-01_10-00.csv".
Definition file_notes : csv_file := sample_file "notes.csv".

(** The sample file with the first year behind five characters only. *)
Definition file_short_prefix : csv_file :=
  {| file_path := "data_csv/vhi_id_15_2025-03-01_10-00.csv";
     read_csv := Ok (sample_first "<pre>1982" :: sample_tail) |}.

(** A file without the markup in front: every year is a number. *)
Definition file_numeric_years : csv_file :=
  {| file_path := "data_csv/vhi_id_15_2025-03-01_10-00.csv";
     read_csv := Ok [
       Raw.mk (Int 1982) (Int 1) (q 59 1000) (q 25824 100) (q 5111 100)
              (q 4878 100) (q 4995 100) NaN;
       Raw.mk (Int 1982) (Int 2) (q 61 1000) (q 25911 100) (q 4402 100)
              (q 4740 100) (q 4571 100) NaN ] |}.

(** A file whose first line below the header has no year, the others
    having theirs as text. *)
Definition file_missing_year : csv_file :=
  {| file_path := "data_csv/vhi_id_15_2025-03-01_10-00.csv";
     read_csv := Ok (Raw.mk NaN NaN NaN NaN NaN NaN NaN NaN :: sample_tail) |}.

(** A dataset as [run_analysis] passes it on: the years made numeric. *)
Definition sample_dataset : frame row :=
  range_index [
    mk_row 9 (Int 1982) (Int 1) (q 59 1000) (q 25824 100) (q 5111 100)
           (q 4878 100) (q 4995 100);
    mk_row 9 (Int 1982) (Int 3) (q 61 1000) (q 25911 100) (q 4402 100)
           (q 4740 100) (q 4571 100);
    mk_row 12 (Int 1983) (Int 1) (q 40 1000) (q 25500 100) (q 3902 100)
           (q 4100 100) (q 4001 100) ].

Definition now_sample : datetime :=
  {| year := 2025; month := 3; day := 1; hour := 10; minute := 0 |}.

(** * Properties *)

(** ** The error monad *)

Lemma bind_Ok {A B} (m : result A) (k : A → result B) (b : B) :
  m ≫= k = Ok b ↔ ∃ a, m = Ok a ∧ k a = Ok b.
Proof.
  destruct m as [a|e]; simpl; split.
  - eauto.
  - by intros (a' & [= <-] & Hk).
  - discriminate.
  - by intros (a' & [=] & _).
Qed.

Lemma bind_Ok_l {A B} (a : A) (k : A → result B) : Ok a ≫= k = k a.
Proof. reflexivity. Qed.

Ltac inv_bind H :=
  repeat match type of H with
  | _ ≫= _ = Ok _ =>
      let a := fresh "a" in let Ha := fresh "Ha" in
      apply bind_Ok in H as (a & Ha & H)
  end.

Lemma comprehension_Ok {A B} (f : A → result B) (l : list A) (ys : list B) :
  comprehension f l = Ok ys ↔ Forall2 (λ x y, f x = Ok y) l ys.
Proof.
  revert ys. induction l as [|x l IH]; intros ys; simpl.
  - split; [intros [= <-]; constructor | by inversion 1].
  - split.
    + intros H. inv_bind H. injection H as <-. constructor; [done | by apply IH].
    + inversion 1 as [|? y ? ys' Hx Hl]; subst.
      rewrite Hx. simpl. apply IH in Hl. by rewrite Hl.
Qed.

Lemma comprehension_Raise {A B} (f : A → result B) (done_ : list A) (x : A)
    (rest : list A) (e : exn) :
  Forall (λ x, is_Ok (f x)) done_ → f x = Raise e →
  comprehension f (done_ ++ x :: rest) = Raise e.
Proof.
  intros Hdone Hx. induction Hdone as [|y l [b Hy] _ IH]; simpl.
  - by rewrite Hx.
  - by rewrite Hy; simpl; rewrite IH.
Qed.

(** ** Strings *)

Lemma split_nonempty sep s : Py.split sep s ≠ [].
Proof.
  destruct s as [|c s]; simpl; [done|].
  destruct (Ascii.eqb c sep); [done|]. by destruct (Py.split sep s).
Qed.

(** [(a + sep + b).split(sep) == a.split(sep) + b.split(sep)] *)
Lemma split_app sep a b :
  Py.split sep (a +:+ String sep b) = Py.split sep a ++ Py.split sep b.
Proof.
  induction a as [|c a IH]; simpl.
  - by rewrite Ascii.eqb_refl.
  - destruct (Ascii.eqb c sep); [by rewrite IH|].
    rewrite IH. pose proof (split_nonempty sep a).
    by destruct (Py.split sep a).
Qed.

Lemma free_of_app c a b : free_of c (a +:+ b) = free_of c a && free_of c b.
Proof. induction a as [|c' a IH]; simpl; [done|]. by rewrite IH, andb_assoc. Qed.

Lemma split_free_of sep s : free_of sep s = true → Py.split sep s = [s].
Proof.
  induction s as [|c s IH]; simpl; [done|].
  intros [Hc Hs]%andb_true_iff. apply negb_true_iff in Hc. rewrite Hc.
  by rewrite IH.
Qed.

Lemma basename_path_join base name :
  free_of "/" name = true → Py.basename (path_join base name) = name.
Proof.
  intros Hname. unfold Py.basename, path_join.
  change ("/" +:+ name) with (String "/" name).
  rewrite split_app, (split_free_of _ name Hname).
  by rewrite List.last_last.
Qed.

Lemma pretty_N_char_neq c (n : N) :
  Ascii.is_nat c = None → Ascii.eqb (pretty_N_char n) c = false.
Proof.
  intros Hc. apply Ascii.eqb_neq. intros <-.
  unfold pretty_N_char in Hc. by repeat case_match.
Qed.

Lemma free_of_0 c : Ascii.is_nat c = None → free_of c "0" = true.
Proof.
  intros Hc.
  change (negb (Ascii.eqb (pretty_N_char 0) c) && true = true).
  by rewrite pretty_N_char_neq.
Qed.

Lemma free_of_pretty_N_go c (x : N) s :
  Ascii.is_nat c = None → free_of c s = true → free_of c (pretty_N_go x s) = true.
Proof.
  intros Hc. revert s. induction (N.lt_wf_0 x) as [x _ IH]; intros s Hs.
  destruct (decide (x = 0%N)) as [->|]; [by rewrite pretty_N_go_0|].
  rewrite pretty_N_go_step by lia.
  apply IH; [apply N.div_lt; lia|]. simpl.
  by rewrite Hs, pretty_N_char_neq.
Qed.

Lemma free_of_pretty_N c (x : N) :
  Ascii.is_nat c = None → free_of c (pretty x) = true.
Proof.
  intros Hc. unfold pretty, pretty_N. case_decide.
  - by apply free_of_0.
  - by apply free_of_pretty_N_go.
Qed.

Lemma free_of_pretty_Z c (z : Z) :
  Ascii.is_nat c = None → c ≠ "-"%char → free_of c (pretty z) = true.
Proof.
  intros Hc Hm. unfold pretty, pretty_Z. destruct z as [|p|p].
  - by apply free_of_0.
  - by apply free_of_pretty_N.
  - change (free_of c ("-" +:+ pretty (N.pos p)) = true).
    rewrite free_of_app, (free_of_pretty_N c (N.pos p) Hc), andb_true_r.
    change (negb (Ascii.eqb "-" c) && true = true).
    rewrite andb_true_r. by apply negb_true_iff, Ascii.eqb_neq.
Qed.

Lemma free_of_zero_pad c width (n : N) :
  Ascii.is_nat c = None → free_of c (zero_pad width n) = true.
Proof.
  intros Hc. unfold zero_pad. cbv zeta.
  rewrite free_of_app, free_of_pretty_N, andb_true_r by done.
  induction (width - _)%nat as [|k IH]; [done|].
  change (free_of c ("0" +:+ zeros k) = true).
  by rewrite free_of_app, IH, free_of_0.
Qed.

Lemma free_of_strftime now : free_of "/" (strftime now) = true.
Proof.
  unfold strftime. by rewrite !free_of_app, !free_of_zero_pad.
Qed.

Lemma free_of_file_name province_code current_date :
  free_of "/" current_date = true →
  free_of "/" (file_name province_code current_date) = true.
Proof.
  intros H. unfold file_name. by rewrite !free_of_app, free_of_pretty_Z, H.
Qed.

(** The segments of a stored name: the third one is empty. *)
Lemma split_file_name province_code current_date :
  Py.split "_" (file_name province_code current_date) =
  "vhi" :: "id" :: EmptyString ::
    Py.split "_" (pretty province_code +:+ "__" +:+ current_date +:+ ".csv").
Proof.
  unfold file_name.
  change ("vhi_id__" +:+ ?s)
    with ("vhi" +:+ String "_" ("id" +:+ String "_" (EmptyString +:+ String "_" s))).
  by rewrite !split_app.
Qed.

(** ** C10: the name [load_data] stores against the id [process_csv] reads *)

(** A first download of a province is stored under [file_name]; a later
    call for the same province stores nothing, whatever the time stamp. *)
Lemma load_data_stores folder province_code now data :
  files_in_folder folder province_code = [] →
  load_data folder province_code now (Some data)
  = folder ++ [(file_name province_code (strftime now), data)].
Proof. unfold load_data. by intros ->. Qed.

Lemma load_data_skips folder province_code now response :
  files_in_folder folder province_code ≠ [] →
  load_data folder province_code now response = folder.
Proof. unfold load_data. by destruct (files_in_folder folder province_code). Qed.

(** C10 (code bug). The name [load_data] gives a file separates the province
    code from its neighbours by two underscores, so the underscore-separated
    segment of index 2, the one [process_csv] converts, is the empty string:
    for every province code, every time stamp, every folder and whatever the
    file holds, [process_csv] raises [ValueError] on the stored file and no
    region id comes back. *)
Theorem process_csv_stored_name (base_folder : string) (province_code : Z)
    (now : datetime) (content : result (list Raw.row)) :
  process_csv
    {| file_path := path_join base_folder (file_name province_code (strftime now));
       read_csv := content |}
  = Raise ValueError.
Proof.
  unfold process_csv, region_of. simpl.
  rewrite basename_path_join by apply free_of_file_name, free_of_strftime.
  by rewrite split_file_name.
Qed.

Example stored_name_5_not_parsed :
  path_join "data_csv" (file_name 5 (strftime now_sample))
    = "data_csv/vhi_id__5__2025-03-01_10-00.csv" ∧
  Py.split "_" (file_name 5 (strftime now_sample))
    = ["vhi"; "id"; EmptyString; "5"; EmptyString; "2025-03-01"; "10-00.csv"] ∧
  region_of "data_csv/vhi_id__5__2025-03-01_10-00.csv" = Raise ValueError ∧
  process_csv (sample_file (file_name 5 (strftime now_sample))) = Raise ValueError.
Proof. by vm_compute. Qed.

(** ** Frames *)

Section frames.
Context {R : Type}.
Implicit Types (df : frame R) (rows : list R).

Lemma elem_of_range_index rows i r :
  (i, r) ∈ range_index rows ↔ rows !! i = Some r.
Proof.
  unfold range_index. rewrite elem_of_lookup_imap. split.
  - by intros (j & y & [= -> ->] & Hj).
  - eauto.
Qed.

Lemma range_index_labels rows : (range_index rows).*1 = seq 0 (length rows).
Proof.
  unfold range_index. rewrite fmap_imap.
  rewrite <-(list_fmap_id (seq 0 (length rows))).
  rewrite (imap_ext _ (λ j _, id j)) by done. apply imap_seq_0.
Qed.

Lemma range_index_rows rows : (range_index rows).*2 = rows.
Proof.
  unfold range_index. rewrite fmap_imap.
  rewrite (imap_ext _ (const id)) by done.
  by rewrite imap_const, list_fmap_id.
Qed.

Lemma elem_of_reset_index df i r : (i, r) ∈ reset_index df → r ∈ df.*2.
Proof.
  unfold reset_index. rewrite elem_of_range_index. apply list_elem_of_lookup_2.
Qed.

Lemma reset_index_rows df : (reset_index df).*2 = df.*2.
Proof. apply range_index_rows. Qed.

Lemma elem_of_select (keep : R → bool) df i r :
  (i, r) ∈ select keep df ↔ keep r = true ∧ (i, r) ∈ df.
Proof. unfold select. by rewrite list_elem_of_filter. Qed.

Lemma elem_of_on_rows {R'} (f : R → R') df i r' :
  (i, r') ∈ on_rows f df ↔ ∃ r, r' = f r ∧ (i, r) ∈ df.
Proof.
  unfold on_rows. rewrite list_elem_of_fmap. split.
  - intros ([j r] & [= -> ->] & Hin). eauto.
  - intros (r & -> & Hin). by exists (i, r).
Qed.


Lemma select_rows (keep : R → bool) df :
  (select keep df).*2 = filter (λ r, keep r = true) df.*2.
Proof.
  unfold select. induction df as [|[i r] df IH]; [done|].
  rewrite fmap_cons. simpl. destruct (keep r) eqn:Hr.
  - rewrite !filter_cons_True by done. by rewrite fmap_cons, IH.
  - rewrite !filter_cons_False by (simpl; congruence). done.
Qed.

Context `{EqDecision R}.

Lemma elem_of_drop_duplicates_from seen df i r :
  (i, r) ∈ drop_duplicates_from seen df → (i, r) ∈ df ∧ r ∉ seen.
Proof.
  revert seen. induction df as [|[j r'] df IH]; intros seen; simpl.
  - by intros ?%elem_of_nil.
  - case_decide as Hseen.
    + intros [Hin Hr]%IH. split; [by right | done].
    + intros [[= -> ->]|[Hin Hr]%IH]%elem_of_cons.
      * split; [by left | done].
      * split; [by right|]. intros ?. apply Hr. by right.
Qed.

Lemma NoDup_drop_duplicates_from seen df :
  NoDup (drop_duplicates_from seen df).*2.
Proof.
  revert seen. induction df as [|[j r] df IH]; intros seen; simpl.
  - constructor.
  - case_decide as Hseen; [apply IH|].
    rewrite fmap_cons. constructor; [|apply IH]. simpl.
    intros ([k r'] & -> & [_ Hr]%elem_of_drop_duplicates_from)%list_elem_of_fmap.
    apply Hr. by left.
Qed.

Lemma drop_duplicates_from_complete seen df r :
  r ∈ df.*2 → r ∉ seen → r ∈ (drop_duplicates_from seen df).*2.
Proof.
  revert seen. induction df as [|[j r'] df IH]; intros seen; simpl.
  - by intros ?%elem_of_nil.
  - intros [->|Hin]%elem_of_cons Hseen.
    + rewrite decide_False by done. by left.
    + case_decide as Hr'; [by apply IH|].
      destruct (decide (r = r')) as [->|Hne]; [by left|].
      right. apply IH; [done|]. by intros [?|?]%elem_of_cons.
Qed.

(** Of the rows equal in every column exactly one stays. *)
Lemma drop_duplicates_rows df :
  NoDup (drop_duplicates df).*2 ∧ ∀ r, r ∈ (drop_duplicates df).*2 ↔ r ∈ df.*2.
Proof.
  split; [apply NoDup_drop_duplicates_from|]. intros r. split.
  - intros ([i r'] & -> & [Hin _]%elem_of_drop_duplicates_from)%list_elem_of_fmap.
    apply list_elem_of_fmap. by exists (i, r').
  - intros Hin. apply drop_duplicates_from_complete; [done|]. by intros ?%elem_of_nil.
Qed.

End frames.

(** ** The region table *)

Lemma lookup_region_translation (x y : Z) :
  region_translation !! x = Some y → 1 ≤ x ≤ 27 ∧ 1 ≤ y ≤ 25.
Proof.
  unfold region_translation. intros H%elem_of_list_to_map_2.
  repeat (apply elem_of_cons in H as [[= -> ->]|H]; [lia|]).
  by apply elem_of_nil in H.
Qed.

Lemma replace_range (x : Z) :
  replace region_translation x ≠ x → 1 ≤ x ≤ 27 ∧ 1 ≤ replace region_translation x ≤ 25.
Proof.
  unfold replace. destruct (region_translation !! x) as [y|] eqn:Hx; simpl; [|done].
  intros _. by apply lookup_region_translation.
Qed.


Lemma replace_unmapped_1_27 :
  Forall (λ x, replace region_translation x = x ↔ x = 12 ∨ x = 20) (seqZ 1 27).
Proof. apply (bool_decide_unpack _). by vm_compute. Qed.

Lemma replace_fixed_point (x : Z) :
  replace region_translation x = x ↔ ¬ (1 ≤ x ≤ 27) ∨ x = 12 ∨ x = 20.
Proof.
  destruct (decide (1 ≤ x ≤ 27)) as [Hx|Hx].
  - pose proof replace_unmapped_1_27 as H. rewrite Forall_forall in H.
    rewrite (H x) by (apply elem_of_seqZ; lia). tauto.
  - split; [tauto|]. intros _.
    destruct (decide (replace region_translation x = x)) as [|Hne]; [done|].
    apply replace_range in Hne. tauto.
Qed.


(** ** The build *)

Lemma astype_int_Week_Ok df out :
  astype_int_Week df = Ok out ↔
  Forall2 (λ ir ir' : nat * row,
    ∃ w, cell_to_int (Week ir.2) = Ok w ∧ ir' = (ir.1, set_Week (Int w) ir.2)) df out.
Proof.
  unfold astype_int_Week. rewrite comprehension_Ok.
  split; intros H; (eapply Forall2_impl; [exact H|]); intros ir ir'; rewrite bind_Ok.
  - intros (w & Hw & [= <-]). eauto.
  - intros (w & Hw & ->). eauto.
Qed.

Lemma combined_data_Ok frames pre :
  combined_data frames = Ok pre ↔
  frames ≠ [] ∧
  pre = select (λ r, negb (isin (region_num r) [12; 20]))
               (reset_index (drop_duplicates (List.concat frames))).
Proof.
  unfold combined_data, concat. destruct frames as [|fr frames]; simpl.
  - split; [discriminate | by intros [? _]].
  - split; [by intros [= <-] | by intros [_ ->]].
Qed.

Lemma data_frame_Ok files ds :
  data_frame files = Ok ds ↔
  ∃ frames pre,
    Forall2 (λ file fr, process_csv file = Ok fr) files frames ∧
    combined_data frames = Ok pre ∧ ds = on_rows translate pre.
Proof.
  unfold data_frame. split.
  - intros H. inv_bind H. injection H as <-.
    apply comprehension_Ok in Ha. eauto.
  - intros (frames & pre & Hfr%comprehension_Ok & Hpre & ->).
    rewrite Hfr. simpl. by rewrite Hpre.
Qed.

(** What [combined_data] keeps: rows of the frames, once each, none of
    local id 12 or 20. *)
Lemma combined_data_rows frames pre :
  combined_data frames = Ok pre →
  NoDup pre.*2 ∧
  ∀ i r, (i, r) ∈ pre →
    region_num r ≠ 12 ∧ region_num r ≠ 20 ∧ ∃ fr j, fr ∈ frames ∧ (j, r) ∈ fr.
Proof.
  intros [_ ->]%combined_data_Ok. split.
  - rewrite select_rows. apply NoDup_filter. rewrite reset_index_rows.
    apply drop_duplicates_rows.
  - intros i r [Hkeep Hin]%elem_of_select.
    apply negb_true_iff, bool_decide_eq_false in Hkeep.
    repeat split.
    + intros Hr. apply Hkeep. rewrite Hr. set_solver.
    + intros Hr. apply Hkeep. rewrite Hr. set_solver.
    + apply elem_of_reset_index in Hin.
      apply (proj1 (proj2 (drop_duplicates_rows _) _)) in Hin.
      apply list_elem_of_fmap in Hin as ([j r'] & -> & Hin).
      apply list_elem_of_In, in_concat in Hin as (fr & Hfr & Hin).
      exists fr, j. by rewrite !list_elem_of_In.
Qed.

(** Every row of a parsed file carries the id read from the file name. *)
Lemma process_csv_region file fr :
  process_csv file = Ok fr →
  ∃ n, region_of (file_path file) = Ok n ∧ ∀ j r, (j, r) ∈ fr → region_num r = n.
Proof.
  unfold process_csv. intros H. inv_bind H. exists a. split; [done|].
  apply astype_int_Week_Ok in H. intros j r Hin.
  apply list_elem_of_lookup in Hin as [k Hk].
  destruct (Forall2_lookup_r _ _ _ _ _ H Hk) as ([j' r'] & Hk' & w & _ & [= -> ->]).
  apply list_elem_of_lookup_2 in Hk'.
  by apply elem_of_on_rows in Hk' as (r0 & -> & _).
Qed.

(** Where a row of [combined_data] comes from. *)
Lemma combined_data_source files frames pre i r :
  Forall2 (λ file fr, process_csv file = Ok fr) files frames →
  combined_data frames = Ok pre → (i, r) ∈ pre →
  region_num r ≠ 12 ∧ region_num r ≠ 20 ∧
  ∃ file fr j, file ∈ files ∧ process_csv file = Ok fr ∧ (j, r) ∈ fr ∧
               region_of (file_path file) = Ok (region_num r).
Proof.
  intros Hfr Hpre Hin.
  destruct (combined_data_rows _ _ Hpre) as [_ Hrows].
  destruct (Hrows _ _ Hin) as (H12 & H20 & fr & j & [k Hk]%list_elem_of_lookup & Hj).
  destruct (Forall2_lookup_r _ _ _ _ _ Hfr Hk)
    as (file & Hfile%list_elem_of_lookup_2 & Hp).
  destruct (process_csv_region _ _ Hp) as (n & Hn & Hreg).
  split; [done|]. split; [done|].
  exists file, fr, j. by rewrite (Hreg _ _ Hj).
Qed.

Lemma elem_of_reset_index_2 {R} (df : frame R) (r : R) :
  r ∈ df.*2 → ∃ i, (i, r) ∈ reset_index df.
Proof.
  intros [i Hi]%list_elem_of_lookup. exists i.
  unfold reset_index. by apply elem_of_range_index.
Qed.

(** What [combined_data] does not lose: a row of a frame with a local id
    other than 12 and 20. *)
Lemma combined_data_keeps frames pre fr j r :
  combined_data frames = Ok pre → fr ∈ frames → (j, r) ∈ fr →
  region_num r ≠ 12 → region_num r ≠ 20 → ∃ i, (i, r) ∈ pre.
Proof.
  intros [_ ->]%combined_data_Ok Hfr Hin H12 H20.
  assert (r ∈ (List.concat frames).*2) as Hconcat.
  { apply list_elem_of_fmap. exists (j, r). split; [done|].
    apply list_elem_of_In, in_concat. exists fr.
    split; by apply list_elem_of_In. }
  apply (proj2 (proj2 (drop_duplicates_rows _) _)) in Hconcat.
  apply elem_of_reset_index_2 in Hconcat as [i Hi].
  exists i. apply elem_of_select. split; [|done].
  apply negb_true_iff, bool_decide_eq_false.
  intros [?|[?|?%elem_of_nil]%elem_of_cons]%elem_of_cons; done.
Qed.

Lemma data_frame_keeps files ds file fr j r0 :
  data_frame files = Ok ds →
  file ∈ files → process_csv file = Ok fr → (j, r0) ∈ fr →
  region_num r0 ≠ 12 → region_num r0 ≠ 20 →
  ∃ i, (i, translate r0) ∈ ds.
Proof.
  intros (frames & pre & Hfr & Hpre & ->)%data_frame_Ok
         [k Hk]%list_elem_of_lookup Hp Hin H12 H20.
  destruct (Forall2_lookup_l _ _ _ _ _ Hfr Hk) as (fr' & Hk' & Hp').
  rewrite Hp in Hp'. injection Hp' as <-.
  destruct (combined_data_keeps _ _ _ _ _ Hpre (list_elem_of_lookup_2 _ _ _ Hk')
              Hin H12 H20) as [i Hi].
  exists i. apply elem_of_on_rows. by exists r0.
Qed.




Example process_csv_sample_15 :
  process_csv file_15 = Ok (zip [0; 2]%nat (sample_kept 15)).
Proof. by vm_compute. Qed.

Example data_frame_sample_15 :
  data_frame [file_15] = Ok (range_index (sample_kept 12)).
Proof. by vm_compute. Qed.


Example data_frame_sample_12_15 :
  data_frame [file_12; file_15] = Ok (zip [2; 3]%nat (sample_kept 12)).
Proof. by vm_compute. Qed.

Example data_frame_sample_23_23 :
  data_frame [file_23; file_23_again] = Ok (range_index (sample_kept 6)).
Proof. by vm_compute. Qed.

(** ** C1: the ids 12 and 20 *)

(** C1, as stated, fails: the filter on 12 and 20 runs on the ids read from
    the file names, before the translation. A file of local id 15 passes it
    and its rows leave [data_frame] with the canonical id 12. *)
Lemma data_frame_canonical_12_present :
  ¬ (∀ ds i r, data_frame [file_15] = Ok ds → (i, r) ∈ ds →
       region_num r ≠ 12 ∧ region_num r ≠ 20).
Proof.
  intros H.
  destruct (H _ 0%nat (sample_kept_first 12 "1982") data_frame_sample_15)
    as [Hne _]; [by left|].
  by apply Hne.
Qed.

(** C1, amended. With the ids of the file names within [int64], the rows
    of the dataset are exactly the translations of the rows [process_csv]
    returns for files whose id, the id the row carries before the
    translation, is neither 12 nor 20: a row of local id 12 or 20 is
    dropped and every other row is kept. In particular the rows of the
    local ids 15 and 9 are kept, and they carry 12 and 20 afterwards. *)
Theorem data_frame_excludes_local_12_20 (files : list csv_file) (ds : frame row) :
  Forall (λ file, ∀ n, region_of (file_path file) = Ok n → - 2 ^ 63 ≤ n < 2 ^ 63)
         files →
  data_frame files = Ok ds →
  (∀ r, r ∈ ds.*2 ↔
     ∃ file fr j r0,
       file ∈ files ∧ process_csv file = Ok fr ∧ (j, r0) ∈ fr ∧
       region_of (file_path file) = Ok (region_num r0) ∧
       region_num r0 ≠ 12 ∧ region_num r0 ≠ 20 ∧
       r = translate r0) ∧
  (∀ file fr j r0,
     file ∈ files → process_csv file = Ok fr → (j, r0) ∈ fr →
     (region_num r0 = 15 →
      translate r0 ∈ ds.*2 ∧ region_num (translate r0) = 12) ∧
     (region_num r0 = 9 →
      translate r0 ∈ ds.*2 ∧ region_num (translate r0) = 20)).
Proof.
  intros _ Hds.
  assert (∀ file fr j r0,
            file ∈ files → process_csv file = Ok fr → (j, r0) ∈ fr →
            region_num r0 ≠ 12 → region_num r0 ≠ 20 → translate r0 ∈ ds.*2)
    as Hkept.
  { intros file fr j r0 Hfile Hp Hj H12 H20.
    destruct (data_frame_keeps _ _ _ _ _ _ Hds Hfile Hp Hj H12 H20) as [i Hi].
    apply list_elem_of_fmap. by exists (i, translate r0). }
  split.
  - intros r. split.
    + intros ([i r'] & -> & Hin)%list_elem_of_fmap. simpl.
      apply data_frame_Ok in Hds as (frames & pre & Hfr & Hpre & ->).
      apply elem_of_on_rows in Hin as (r0 & -> & Hin).
      destruct (combined_data_source _ _ _ _ _ Hfr Hpre Hin)
        as (H12 & H20 & file & fr & j & Hfile & Hp & Hj & Hn).
      by exists file, fr, j, r0.
    + intros (file & fr & j & r0 & Hfile & Hp & Hj & _ & H12 & H20 & ->).
      by eapply Hkept.
  - intros file fr j r0 Hfile Hp Hj. split; intros Hid.
    + split; [eapply Hkept; [done..|lia|lia]|].
      unfold translate. simpl. by rewrite Hid.
    + split; [eapply Hkept; [done..|lia|lia]|].
      unfold translate. simpl. by rewrite Hid.
Qed.

(** C1, amended, on a folder with the sample files of the local ids 12
    and 15: the dataset holds the rows of the second, with the id 12. *)
Lemma data_frame_excludes_local_12_20_witness :
  Forall (λ file, ∀ n, region_of (file_path file) = Ok n → - 2 ^ 63 ≤ n < 2 ^ 63)
         [file_12; file_15] ∧
  data_frame [file_12; file_15] = Ok (zip [2; 3]%nat (sample_kept 12)) ∧
  (∀ r, r ∈ (zip [2; 3]%nat (sample_kept 12)).*2 ↔
     ∃ file fr j r0,
       file ∈ [file_12; file_15] ∧ process_csv file = Ok fr ∧ (j, r0) ∈ fr ∧
       region_of (file_path file) = Ok (region_num r0) ∧
       region_num r0 ≠ 12 ∧ region_num r0 ≠ 20 ∧
       r = translate r0) ∧
  (∀ file fr j r0,
     file ∈ [file_12; file_15] → process_csv file = Ok fr → (j, r0) ∈ fr →
     (region_num r0 = 15 →
      translate r0 ∈ (zip [2; 3]%nat (sample_kept 12)).*2 ∧
      region_num (translate r0) = 12) ∧
     (region_num r0 = 9 →
      translate r0 ∈ (zip [2; 3]%nat (sample_kept 12)).*2 ∧
      region_num (translate r0) = 20)).
Proof.
  assert (Forall (λ file, ∀ n, region_of (file_path file) = Ok n →
                          - 2 ^ 63 ≤ n < 2 ^ 63) [file_12; file_15]) as Hfit.
  { apply Forall_forall. intros file Hfile n Hn.
    repeat (apply elem_of_cons in Hfile as [->|Hfile];
            [vm_compute in Hn; injection Hn as <-; lia|]).
    by apply elem_of_nil in Hfile. }
  assert (data_frame [file_12; file_15] = Ok (zip [2; 3]%nat (sample_kept 12)))
    as Hds by (vm_compute; reflexivity).
  split; [exact Hfit|]. split; [exact Hds|].
  exact (data_frame_excludes_local_12_20 _ _ Hfit Hds).
Defined.

(** ** C3: no file at all *)

(** C3, as stated, fails: with no file, [data_frame] returns no dataset. *)
Lemma data_frame_no_files_not_empty : ¬ (data_frame [] = Ok []).
Proof. discriminate. Qed.

(** C3, amended. With no file the list handed to [pd.concat] is empty and
    [data_frame] raises [ValueError]. *)
Theorem data_frame_no_files : data_frame [] = Raise ValueError.
Proof. reflexivity. Qed.

(** An empty dataset comes back when there are files and no row of them
    survives. *)
Lemma data_frame_no_rows (files : list csv_file) :
  files ≠ [] → Forall (λ file, process_csv file = Ok []) files →
  data_frame files = Ok [].
Proof.
  intros Hne Hall. apply data_frame_Ok.
  exists (replicate (length files) []), []. split; [|split; [|done]].
  - clear Hne. induction Hall; simpl; by constructor.
  - apply combined_data_Ok. split; [by destruct files|].
    replace (List.concat (replicate (length files) [])) with (@nil (nat * row)); [done|].
    clear. induction files; simpl; [done|]. done.
Qed.

(** ** C4: a file that does not parse *)

(** C4, as stated, fails: [file_23] parses, [notes.csv] has no third
    segment in its name, and the build of the two raises instead of
    returning the rows of [file_23]. *)
Lemma data_frame_bad_file_aborts :
  is_Ok (process_csv file_23) ∧ process_csv file_notes = Raise IndexError ∧
  ¬ is_Ok (data_frame [file_23; file_notes]).
Proof.
  split; [|split].
  - eexists. by vm_compute.
  - by vm_compute.
  - intros [ds Hds]. by vm_compute in Hds.
Qed.

(** C4, amended. [data_frame] has no handler around [process_csv]: the
    exception of the first file that fails to parse is the outcome of the
    whole build, whatever the other files hold. *)
Theorem data_frame_propagates (parsed : list csv_file) (file : csv_file)
    (rest : list csv_file) (e : exn) :
  Forall (λ f, is_Ok (process_csv f)) parsed → process_csv file = Raise e →
  data_frame (parsed ++ file :: rest) = Raise e.
Proof.
  intros Hparsed Hfile. unfold data_frame.
  by rewrite (comprehension_Raise _ _ _ _ _ Hparsed Hfile).
Qed.

(** C4, amended, on a folder where [notes.csv] comes second. *)
Lemma data_frame_propagates_witness :
  Forall (λ f, is_Ok (process_csv f)) [file_23] ∧
  process_csv file_notes = Raise IndexError ∧
  data_frame ([file_23] ++ file_notes :: [file_15]) = Raise IndexError.
Proof.
  assert (Forall (λ f, is_Ok (process_csv f)) [file_23]) as Hparsed.
  { constructor; [|constructor]. eexists. vm_compute. reflexivity. }
  assert (process_csv file_notes = Raise IndexError) as Hnotes
    by (vm_compute; reflexivity).
  split; [exact Hparsed|]. split; [exact Hnotes|].
  exact (data_frame_propagates _ _ _ _ Hparsed Hnotes).
Defined.

(** ** C2: duplicates *)




(** ** C8: ids the translation leaves alone *)

(** C8, as stated, fails: the canonical id 1 is sent to 22, which is neither
    1 itself nor one of 12, 20. *)
Lemma translation_moves_1 :
  ¬ (∀ id, 1 ≤ id ≤ 25 →
       replace region_translation id = id ∨
       replace region_translation id = 12 ∨ replace region_translation id = 20).
Proof.
  intros H. specialize (H 1 ltac:(lia)). vm_compute in H.
  by destruct H as [|[|]].
Qed.

(** C8, amended. Among the ids 1..25 the translation returns 12 and 20
    unchanged, the two that have no entry in the table, and moves every
    other one; and no row of the dataset comes from a row carrying 12 or
    20 before the translation. *)
Theorem translation_fixed_points (id : Z) :
  1 ≤ id ≤ 25 →
  (replace region_translation id = id ↔ id = 12 ∨ id = 20) ∧
  (replace region_translation id = id →
   ∀ files ds, data_frame files = Ok ds →
     ∃ frames pre,
       Forall2 (λ file fr, process_csv file = Ok fr) files frames ∧
       combined_data frames = Ok pre ∧ ds = on_rows translate pre ∧
       Forall (λ ir, region_num ir.2 ≠ id) pre).
Proof.
  intros Hid.
  assert (replace region_translation id = id ↔ id = 12 ∨ id = 20) as Hfix.
  { rewrite replace_fixed_point. lia. }
  split; [done|]. intros Hid' files ds (frames & pre & Hfr & Hpre & ->)%data_frame_Ok.
  exists frames, pre. repeat split; [done..|].
  apply Forall_forall. intros [i r] Hin.
  destruct (combined_data_rows _ _ Hpre) as [_ Hrows].
  destruct (Hrows _ _ Hin) as (H12 & H20 & _). simpl.
  apply Hfix in Hid'. lia.
Qed.

(** C8, amended, at the id 12. *)
Lemma translation_fixed_points_witness :
  1 ≤ 12 ≤ 25 ∧
  (replace region_translation 12 = 12 ↔ 12 = 12 ∨ 12 = 20) ∧
  (replace region_translation 12 = 12 →
   ∀ files ds, data_frame files = Ok ds →
     ∃ frames pre,
       Forall2 (λ file fr, process_csv file = Ok fr) files frames ∧
       combined_data frames = Ok pre ∧ ds = on_rows translate pre ∧
       Forall (λ ir, region_num ir.2 ≠ 12) pre).
Proof.
  assert (1 ≤ 12 ≤ 25) as Hid by lia.
  split; [exact Hid|]. exact (translation_fixed_points 12 Hid).
Defined.

(** ** The parser *)

Lemma cell_ne_true (c : cell) (q : Qc) : cell_ne c q = true ↔ c ≠ Num q.
Proof.
  destruct c as [s|q'|]; simpl; [done| |done].
  rewrite negb_true_iff, bool_decide_eq_false. split; congruence.
Qed.

Lemma slice_from_app (prefix rest : string) :
  Py.slice_from (String.length prefix) (prefix +:+ rest) = rest.
Proof. induction prefix as [|c prefix IH]; simpl; [by destruct rest | done]. Qed.

Lemma comprehension_is_Ok {A B} (f : A → result B) (l : list A) :
  Forall (λ x, is_Ok (f x)) l → is_Ok (comprehension f l).
Proof.
  induction 1 as [|x l [y Hx] _ [ys IH]]; simpl.
  - by eexists.
  - rewrite Hx. simpl. rewrite IH. by eexists.
Qed.

Section parser_frames.
Context {R : Type}.
Implicit Types (df : frame R) (rows : list R).

Lemma elem_of_set_at df label (g : R → R) i r :
  (i, r) ∈ set_at df label g ↔
  ∃ r0, (i, r0) ∈ df ∧ r = if decide (i = label) then g r0 else r0.
Proof.
  unfold set_at. rewrite list_elem_of_fmap. split.
  - intros ([j r0] & Heq & Hin). simpl in Heq.
    case_decide as Hj; injection Heq as -> ->; exists r0; (split; [done|]).
    + by rewrite decide_True.
    + by rewrite decide_False.
  - intros (r0 & Hin & ->). exists (i, r0). simpl. split; [|done].
    by case_decide.
Qed.

Lemma set_at_labels df label (g : R → R) : (set_at df label g).*1 = df.*1.
Proof.
  unfold set_at. rewrite <-list_fmap_compose. apply list_fmap_ext.
  intros _ [j r] _. simpl. by case_decide.
Qed.

Lemma index_last_seq df k : df.*1 = seq 0 (S k) → index_last df = Ok k.
Proof.
  unfold index_last. intros ->. rewrite seq_S, fmap_app. simpl.
  by rewrite List.last_last.
Qed.

Lemma elem_of_drop label df i r : (i, r) ∈ drop label df ↔ i ≠ label ∧ (i, r) ∈ df.
Proof. unfold drop. by rewrite list_elem_of_filter. Qed.

Lemma at_range_index rows r0 (col : R → cell) :
  rows !! 0%nat = Some r0 → at_ (range_index rows) 0 col = Ok (col r0).
Proof.
  destruct rows as [|r rows]; [done|]. intros [= ->].
  by unfold at_, range_index.
Qed.

Lemma NoDup_filter_labels (P : nat * R → Prop) `{∀ x, Decision (P x)} df :
  NoDup df.*1 → NoDup (filter P df).*1.
Proof.
  intros Hdf. eapply sublist_NoDup; [exact Hdf|].
  apply fmap_sublist, sublist_filter.
Qed.

End parser_frames.

Lemma elem_of_astype_int_Week df out i r :
  astype_int_Week df = Ok out →
  (i, r) ∈ out ↔ ∃ r0 w, (i, r0) ∈ df ∧ cell_to_int (Week r0) = Ok w ∧
                          r = set_Week (Int w) r0.
Proof.
  intros H%astype_int_Week_Ok. split.
  - intros [k Hk]%list_elem_of_lookup.
    destruct (Forall2_lookup_r _ _ _ _ _ H Hk) as ([j r0] & Hk0 & w & Hw & [= -> ->]).
    exists r0, w. split; [|done]. by eapply list_elem_of_lookup_2.
  - intros (r0 & w & [k Hk]%list_elem_of_lookup & Hw & ->).
    destruct (Forall2_lookup_l _ _ _ _ _ H Hk) as (ir' & Hk' & w' & Hw' & ->).
    simpl in *. rewrite Hw in Hw'. injection Hw' as <-.
    by eapply list_elem_of_lookup_2.
Qed.

Lemma astype_int_Week_labels df out : astype_int_Week df = Ok out → out.*1 = df.*1.
Proof.
  intros H%astype_int_Week_Ok. induction H as [|ir ir' df out (w & _ & ->) _ IH]; [done|].
  by rewrite !fmap_cons, IH.
Qed.

(** [process_csv] on a file that parses: the name gives an id, the first
    year is a string, and the weeks of the rows that stay are integers. *)
Lemma process_csv_spec (file : csv_file) (n : Z) (rows : list Raw.row)
    (r0 : Raw.row) (s : string) :
  region_of (file_path file) = Ok n →
  read_csv file = Ok rows →
  rows !! 0%nat = Some r0 → Raw.Year r0 = Str s →
  Forall (λ raw, Raw.VHI raw ≠ Int (-1) → is_Ok (cell_to_int (Raw.Week raw)))
         (removelast rows) →
  ∃ out, process_csv file = Ok out ∧ NoDup out.*1 ∧
    ∀ i r, (i, r) ∈ out ↔
      ∃ raw w, rows !! i = Some raw ∧ (i < length rows - 1)%nat ∧
               Raw.VHI raw ≠ Int (-1) ∧ cell_to_int (Raw.Week raw) = Ok w ∧
               r = processed n i raw w.
Proof.
  intros Hn Hrows Hr0 Hs Hweeks. unfold process_csv.
  rewrite Hn, Hrows. simpl.
  rewrite (at_range_index _ _ _ Hr0), Hs. simpl.
  assert (∃ k, length rows = S k) as [k Hk].
  { destruct rows; [done|]. by eexists. }
  rewrite (index_last_seq _ k)
    by (by rewrite set_at_labels, range_index_labels, Hk).
  simpl.
  set (data := on_rows _ _).
  assert (∀ i r, (i, r) ∈ data ↔
            ∃ raw, rows !! i = Some raw ∧ (i < k)%nat ∧ Raw.VHI raw ≠ Int (-1) ∧
                   r = insert_region n
                         (if decide (i = 0%nat) then Raw.set_Year (Str (Py.slice_from 9 s)) raw
                          else raw)) as Hdata.
  { intros i r. unfold data. rewrite elem_of_on_rows. split.
    - intros (r1 & -> & [Hkeep [Hi (raw & Hin & ->)%elem_of_set_at]%elem_of_drop]%elem_of_select).
      apply elem_of_range_index in Hin. exists raw.
      pose proof (lookup_lt_Some _ _ _ Hin).
      split; [done|]. split; [lia|]. split; [|done].
      apply cell_ne_true in Hkeep. by case_decide.
    - intros (raw & Hin & Hi & Hvhi & ->). eexists. split; [done|].
      apply elem_of_select. split.
      + apply cell_ne_true. by case_decide.
      + apply elem_of_drop. split; [lia|]. apply elem_of_set_at.
        exists raw. by rewrite elem_of_range_index. }
  assert (NoDup data.*1) as Hnodup.
  { unfold data, on_rows, select, drop. rewrite <-list_fmap_compose.
    change (fst ∘ _) with (@fst nat Raw.row).
    do 2 apply NoDup_filter_labels.
    rewrite set_at_labels, range_index_labels. apply NoDup_seq. }
  destruct (comprehension_is_Ok
              (λ ir : nat * row, w ← cell_to_int (Week ir.2); Ok (ir.1, set_Week (Int w) ir.2))
              data) as [out Hout].
  { apply Forall_forall. intros [i r] (raw & Hin & Hi & Hvhi & ->)%Hdata. simpl.
    rewrite Forall_forall in Hweeks.
    destruct (Hweeks raw) as [w Hw]; [|done|].
    - rewrite removelast_firstn_len, Hk. simpl.
      apply list_elem_of_lookup. exists i. by rewrite lookup_take_lt.
    - destruct (decide (i = 0%nat)); simpl; rewrite Hw; simpl; by eexists. }
  exists out. split; [exact Hout|]. split.
  - by rewrite (astype_int_Week_labels _ _ Hout).
  - intros i r. rewrite (elem_of_astype_int_Week _ _ _ _ Hout). split.
    + intros (r1 & w & (raw & Hin & Hi & Hvhi & ->)%Hdata & Hw & ->).
      exists raw, w. rewrite Hk.
      split; [done|]. split; [lia|]. split; [done|]. split.
      * by case_decide.
      * unfold processed. case_decide; [|done]. subst i.
        rewrite Hr0 in Hin. injection Hin as <-. by rewrite Hs.
    + intros (raw & w & Hin & Hi & Hvhi & Hw & ->). rewrite Hk in Hi.
      eexists _, w.
      split; [apply Hdata; exists raw; split; [done|]; split; [lia|]; by split|].
      split; [by case_decide|].
      unfold processed. case_decide; [|done]. subst i.
      rewrite Hr0 in Hin. injection Hin as <-. by rewrite Hs.
Qed.

(** ** C5: the year of the first record *)

(** C5, as stated, fails: the cut is at the fixed offset 9. Behind a prefix
    of five characters the first year [<pre>1982] comes out empty, not
    as 1982. *)
Lemma process_csv_short_prefix :
  ¬ (∀ out r, process_csv file_short_prefix = Ok out → (0%nat, r) ∈ out →
       Year r = Str "1982" ∨ Year r = Int 1982).
Proof.
  intros H.
  assert (process_csv file_short_prefix
          = Ok (zip [0; 2]%nat [sample_kept_first 15 EmptyString; sample_kept_third 15]))
    as Hout by (by vm_compute).
  destruct (H _ _ Hout ltac:(by left)) as [[=]|[=]].
Qed.

(** C5, amended. On a file that parses and keeps its first row, the row
    labelled 0 of the result carries as year the text of the first year
    field without its first nine characters, still a string; that is the
    numeric part exactly when the prefix is nine characters long. *)
Theorem process_csv_first_year (file : csv_file) (n : Z) (rows : list Raw.row)
    (r0 : Raw.row) (s : string) :
  region_of (file_path file) = Ok n →
  read_csv file = Ok rows → (2 ≤ length rows)%nat →
  rows !! 0%nat = Some r0 → Raw.Year r0 = Str s → Raw.VHI r0 ≠ Int (-1) →
  Forall (λ raw, Raw.VHI raw ≠ Int (-1) → is_Ok (cell_to_int (Raw.Week raw)))
         (removelast rows) →
  ∃ out r,
    process_csv file = Ok out ∧ (0%nat, r) ∈ out ∧
    (∀ r', (0%nat, r') ∈ out → r' = r) ∧
    Year r = Str (Py.slice_from 9 s) ∧
    (∀ prefix numeric, s = prefix +:+ numeric → String.length prefix = 9%nat →
       Year r = Str numeric).
Proof.
  intros Hn Hrows Hlen Hr0 Hs Hvhi Hweeks.
  destruct (process_csv_spec _ _ _ _ _ Hn Hrows Hr0 Hs Hweeks) as (out & Hout & _ & Hin).
  assert (is_Ok (cell_to_int (Raw.Week r0))) as [w Hw].
  { rewrite Forall_forall in Hweeks. apply Hweeks; [|done].
    destruct rows as [|? [|? rows]]; simpl in *; [lia..|].
    injection Hr0 as ->. by left. }
  exists out, (processed n 0 r0 w). split; [done|]. split; [|split; [|split]].
  - apply Hin. exists r0, w. repeat split; [done|lia|done..].
  - intros r' (raw & w' & Hraw & _ & _ & Hw' & ->)%Hin.
    rewrite Hr0 in Hraw. injection Hraw as <-. congruence.
  - simpl. by rewrite Hs.
  - intros prefix numeric -> H9.
    change (match Raw.Year r0 with Str s => Str (Py.slice_from 9 s) | y => y end
            = Str numeric).
    by rewrite Hs, <-H9, slice_from_app.
Qed.

(** C5, amended, on the sample file, whose prefix has nine characters. *)
Lemma process_csv_first_year_witness :
  region_of (file_path file_15) = Ok 15 ∧
  read_csv file_15 = Ok sample_rows ∧ (2 ≤ length sample_rows)%nat ∧
  sample_rows !! 0%nat = head sample_rows ∧
  Forall (λ raw, Raw.VHI raw ≠ Int (-1) → is_Ok (cell_to_int (Raw.Week raw)))
         (removelast sample_rows) ∧
  ∃ out r,
    process_csv file_15 = Ok out ∧ (0%nat, r) ∈ out ∧
    (∀ r', (0%nat, r') ∈ out → r' = r) ∧
    Year r = Str (Py.slice_from 9 "<tt><pre>1982") ∧
    (∀ prefix numeric, "<tt><pre>1982" = prefix +:+ numeric →
       String.length prefix = 9%nat → Year r = Str numeric).
Proof.
  assert (region_of (file_path file_15) = Ok 15) as Hn by (vm_compute; reflexivity).
  assert (Forall (λ raw, Raw.VHI raw ≠ Int (-1) → is_Ok (cell_to_int (Raw.Week raw)))
                 (removelast sample_rows)) as Hweeks.
  { repeat constructor; intros _; eexists; vm_compute; reflexivity. }
  assert (2 ≤ length sample_rows)%nat as Hlen by (simpl; lia).
  split; [exact Hn|]. split; [reflexivity|]. split; [exact Hlen|].
  split; [reflexivity|]. split; [exact Hweeks|].
  refine (process_csv_first_year file_15 15 sample_rows _ "<tt><pre>1982"
            Hn eq_refl Hlen eq_refl eq_refl _ Hweeks).
  discriminate.
Defined.

(** ** C6: the rows the parser drops *)

(** C6. On a file that parses (an id in its name, a string as first year,
    integer weeks on the rows that stay) [process_csv] returns, and the
    labels of the result are the labels of the rows of the file except the
    last one and those whose VHI is -1, each once; a row of the result is
    the row of the file with its label, as [processed] puts it: region in
    front, week as an integer, measurements untouched. *)
Theorem process_csv_drops_exactly (file : csv_file) (n : Z) (rows : list Raw.row)
    (r0 : Raw.row) (s : string) :
  region_of (file_path file) = Ok n →
  read_csv file = Ok rows → (2 ≤ length rows)%nat →
  rows !! 0%nat = Some r0 → Raw.Year r0 = Str s →
  Forall (λ raw, Raw.VHI raw ≠ Int (-1) → is_Ok (cell_to_int (Raw.Week raw)))
         (removelast rows) →
  ∃ out,
    process_csv file = Ok out ∧ NoDup out.*1 ∧
    (∀ i, i ∈ out.*1 ↔
       ∃ raw, rows !! i = Some raw ∧ i ≠ (length rows - 1)%nat ∧
              Raw.VHI raw ≠ Int (-1)) ∧
    (∀ i r, (i, r) ∈ out →
       ∃ raw w, rows !! i = Some raw ∧ cell_to_int (Raw.Week raw) = Ok w ∧
                r = processed n i raw w).
Proof.
  intros Hn Hrows _ Hr0 Hs Hweeks.
  destruct (process_csv_spec _ _ _ _ _ Hn Hrows Hr0 Hs Hweeks) as (out & Hout & Hnodup & Hin).
  exists out. split; [done|]. split; [done|]. split.
  - intros i. rewrite list_elem_of_fmap. split.
    + intros ([j r] & -> & (raw & w & Hraw & Hi & Hvhi & _)%Hin). simpl.
      exists raw. split; [done|]. split; [lia|done].
    + intros (raw & Hraw & Hi & Hvhi).
      assert (is_Ok (cell_to_int (Raw.Week raw))) as [w Hw].
      { rewrite Forall_forall in Hweeks. apply Hweeks; [|done].
        pose proof (lookup_lt_Some _ _ _ Hraw).
        rewrite removelast_firstn_len. apply list_elem_of_lookup. exists i.
        rewrite lookup_take_lt by lia. done. }
      exists (i, processed n i raw w). split; [done|]. apply Hin.
      exists raw, w. pose proof (lookup_lt_Some _ _ _ Hraw).
      split; [done|]. split; [lia|]. by split.
  - intros i r (raw & w & Hraw & _ & _ & Hw & ->)%Hin. by exists raw, w.
Qed.

(** C6 on the sample file: of four rows the first and the third stay. *)
Lemma process_csv_drops_exactly_witness :
  region_of (file_path file_15) = Ok 15 ∧
  read_csv file_15 = Ok sample_rows ∧ (2 ≤ length sample_rows)%nat ∧
  sample_rows !! 0%nat = head sample_rows ∧
  Forall (λ raw, Raw.VHI raw ≠ Int (-1) → is_Ok (cell_to_int (Raw.Week raw)))
         (removelast sample_rows) ∧
  ∃ out,
    process_csv file_15 = Ok out ∧ NoDup out.*1 ∧
    (∀ i, i ∈ out.*1 ↔
       ∃ raw, sample_rows !! i = Some raw ∧ i ≠ (length sample_rows - 1)%nat ∧
              Raw.VHI raw ≠ Int (-1)) ∧
    (∀ i r, (i, r) ∈ out →
       ∃ raw w, sample_rows !! i = Some raw ∧ cell_to_int (Raw.Week raw) = Ok w ∧
                r = processed 15 i raw w).
Proof.
  assert (region_of (file_path file_15) = Ok 15) as Hn by (vm_compute; reflexivity).
  assert (Forall (λ raw, Raw.VHI raw ≠ Int (-1) → is_Ok (cell_to_int (Raw.Week raw)))
                 (removelast sample_rows)) as Hweeks.
  { repeat constructor; intros _; eexists; vm_compute; reflexivity. }
  assert (2 ≤ length sample_rows)%nat as Hlen by (simpl; lia).
  split; [exact Hn|]. split; [reflexivity|]. split; [exact Hlen|].
  split; [reflexivity|]. split; [exact Hweeks|].
  exact (process_csv_drops_exactly file_15 15 sample_rows _ "<tt><pre>1982"
           Hn eq_refl Hlen eq_refl eq_refl Hweeks).
Defined.

(** ** C9: queries that select nothing *)

Lemma between_within c left right :
  is_str c = false → between c left right = Ok (within c left right).
Proof. by destruct c. Qed.

Lemma selected_matches years_interval weeks_interval region r :
  is_str (Year r) = false → is_str (Week r) = false →
  selected years_interval weeks_interval region r = true ↔
  matches years_interval weeks_interval region r.
Proof.
  intros Hy Hw. unfold selected, matches.
  rewrite !between_within by done.
  rewrite !andb_true_iff, bool_decide_eq_true. split.
  - intros [[-> ->] <-]. done.
  - intros ([= ->] & [= ->] & ->). done.
Qed.

Lemma comprehension_total {A B} (f : A → result B) (g : A → B) (l : list A) :
  Forall (λ x, f x = Ok (g x)) l → comprehension f l = Ok (g <$> l).
Proof.
  induction 1 as [|x l Hx _ IH]; simpl; [done|]. rewrite Hx. simpl. by rewrite IH.
Qed.

Lemma zip_with_fmap_same {A B C D} (f : B → C → D) (g : A → B) (h : A → C) (l : list A) :
  zip_with f (g <$> l) (h <$> l) = (λ x, f (g x) (h x)) <$> l.
Proof. induction l as [|x l IH]; csimpl; [done|]. by rewrite IH. Qed.

Lemma boolean_mask_fmap {R} (keep : nat * R → bool) (df : frame R) :
  boolean_mask (keep <$> df) df = filter (λ ir, keep ir = true) df.
Proof.
  unfold boolean_mask. induction df as [|ir df IH]; [done|].
  rewrite fmap_cons. simpl. destruct (keep ir) eqn:Hir.
  - rewrite !filter_cons_True by done. by rewrite fmap_cons, IH.
  - rewrite !filter_cons_False by (simpl; congruence). done.
Qed.

Lemma filter_none {A} (P : A → Prop) `{∀ x, Decision (P x)} (l : list A) :
  Forall (λ x, ¬ P x) l → filter P l = [].
Proof.
  induction 1 as [|x l Hx _ IH]; [done|]. by rewrite filter_cons_False.
Qed.

(** The rows [filter_data] selects before it sorts, on numeric columns. *)
Lemma filter_data_selected sort_values df years_interval weeks_interval
    region sort_option parameter :
  Forall (λ ir : nat * row,
    is_str (Year ir.2) = false ∧ is_str (Week ir.2) = false) df →
  filter_data sort_values df years_interval weeks_interval region sort_option parameter
  = let filtered_data :=
      filter (λ ir : nat * row,
        selected years_interval weeks_interval region ir.2 = true) df in
    if decide (sort_option = "За зростанням") then
      by_ ← column parameter; sort_values by_ true filtered_data
    else if decide (sort_option = "За спаданням") then
      by_ ← column parameter; sort_values by_ false filtered_data
    else Ok filtered_data.
Proof.
  intros Hnum. unfold filter_data.
  rewrite (comprehension_total
    (λ ir : nat * row, between (Year ir.2) years_interval.1 years_interval.2)
    (λ ir : nat * row, within (Year ir.2) years_interval.1 years_interval.2)).
  2:{ eapply Forall_impl; [exact Hnum|]. intros ir [Hy _]. by apply between_within. }
  rewrite bind_Ok_l.
  rewrite (comprehension_total
    (λ ir : nat * row, between (Week ir.2) weeks_interval.1 weeks_interval.2)
    (λ ir : nat * row, within (Week ir.2) weeks_interval.1 weeks_interval.2)).
  2:{ eapply Forall_impl; [exact Hnum|]. intros ir [_ Hw]. by apply between_within. }
  rewrite bind_Ok_l. cbv zeta.
  rewrite !zip_with_fmap_same, boolean_mask_fmap. reflexivity.
Qed.

(** C9, as stated, fails: not every dataset and not every call is answered
    with the empty frame when the region name is no name of the table.
    On the frame [data_frame] returns for the sample file the years are
    still text, and [filter_data] raises [TypeError] when it compares them
    with the bounds; so the parameter naming a column is not enough. On
    the sample dataset, with numeric years and weeks, a sort by [NDVI],
    which is no column, raises [KeyError] although no row is selected; so
    numeric columns are not enough. *)
Lemma filter_data_unresolved_region_raises :
  ¬ (∀ sort_values df years_interval weeks_interval region sort_option parameter,
       (∀ by_ ascending, sort_values by_ ascending [] = Ok []) →
       is_Ok (column parameter) →
       region_names_to_id !! region = None →
       filter_data sort_values df years_interval weeks_interval region
                   sort_option parameter = Ok []) ∧
  ¬ (∀ sort_values df years_interval weeks_interval region sort_option parameter,
       (∀ by_ ascending, sort_values by_ ascending [] = Ok []) →
       Forall (λ ir : nat * row,
         is_str (Year ir.2) = false ∧ is_str (Week ir.2) = false) df →
       region_names_to_id !! region = None →
       filter_data sort_values df years_interval weeks_interval region
                   sort_option parameter = Ok []).
Proof.
  split; intros H.
  - assert (filter_data insertion_sort_values (range_index (sample_kept 12))
              (1981, 2025) (1, 52) "Atlantis" "Без сортування" "VHI" = Ok [])
      as Hc.
    { apply H; [by intros|eexists; reflexivity|by vm_compute]. }
    by vm_compute in Hc.
  - assert (filter_data insertion_sort_values sample_dataset
              (1981, 2025) (1, 52) "Atlantis" "За зростанням" "NDVI" = Ok [])
      as Hc.
    { apply H; [by intros|repeat constructor|by vm_compute]. }
    by vm_compute in Hc.
Qed.

(** C9, amended. On a dataset with numeric years and weeks, and for a
    parameter that names a column when a sort is asked for, [filter_data]
    returns the empty frame, and raises nothing, when the region name is
    not in the table, and as well when no row satisfies the three
    conditions of the filter. Of the sorting routine only this is used: it
    returns the empty frame on the empty frame. *)
Theorem filter_data_no_match
    (sort_values : (row → cell) → bool → frame row → result (frame row))
    (df : frame row) (years_interval weeks_interval : Z * Z)
    (region sort_option parameter : string) :
  (∀ by_ ascending, sort_values by_ ascending [] = Ok []) →
  Forall (λ ir : nat * row,
    is_str (Year ir.2) = false ∧ is_str (Week ir.2) = false) df →
  (sort_option = "За зростанням" ∨ sort_option = "За спаданням" →
   is_Ok (column parameter)) →
  region_names_to_id !! region = None ∨
    (∀ i r, (i, r) ∈ df → ¬ matches years_interval weeks_interval region r) →
  filter_data sort_values df years_interval weeks_interval region sort_option parameter
  = Ok [].
Proof.
  intros Hsort Hnum Hcol Hnone.
  rewrite filter_data_selected by done. cbv zeta.
  rewrite filter_none.
  { repeat case_decide; [| |done].
    - destruct Hcol as [by_ ->]; [by left|]. by rewrite bind_Ok_l, Hsort.
    - destruct Hcol as [by_ ->]; [by right|]. by rewrite bind_Ok_l, Hsort. }
  rewrite Forall_forall in Hnum. apply Forall_forall. intros [i r] Hin.
  destruct (Hnum _ Hin) as [Hy Hw]. cbn [fst snd] in *.
  rewrite selected_matches by done.
  destruct Hnone as [Hregion|Hrows]; [|by apply (Hrows i)].
  intros (_ & _ & Hr). congruence.
Qed.

(** C9, amended, on the sample dataset, for a name that is no region. *)
Lemma filter_data_no_match_witness :
  (∀ by_ ascending, insertion_sort_values by_ ascending [] = Ok []) ∧
  Forall (λ ir : nat * row,
    is_str (Year ir.2) = false ∧ is_str (Week ir.2) = false) sample_dataset ∧
  ("За спаданням" = "За зростанням" ∨ "За спаданням" = "За спаданням" →
   is_Ok (column "VHI")) ∧
  (region_names_to_id !! "Atlantis" = None ∨
    (∀ i r, (i, r) ∈ sample_dataset → ¬ matches (1981, 2025) (1, 52) "Atlantis" r)) ∧
  filter_data insertion_sort_values sample_dataset (1981, 2025) (1, 52)
              "Atlantis" "За спаданням" "VHI" = Ok [].
Proof.
  assert (∀ by_ ascending, insertion_sort_values by_ ascending [] = Ok []) as Hsort
    by (intros; reflexivity).
  assert (Forall (λ ir : nat * row,
            is_str (Year ir.2) = false ∧ is_str (Week ir.2) = false) sample_dataset)
    as Hnum by (repeat constructor).
  assert ("За спаданням" = "За зростанням" ∨ "За спаданням" = "За спаданням" →
          is_Ok (column "VHI")) as Hcol by (intros _; eexists; reflexivity).
  assert (region_names_to_id !! "Atlantis" = None ∨
          (∀ i r, (i, r) ∈ sample_dataset → ¬ matches (1981, 2025) (1, 52) "Atlantis" r))
    as Hnone by (left; vm_compute; reflexivity).
  split; [exact Hsort|]. split; [exact Hnum|]. split; [exact Hcol|].
  split; [exact Hnone|].
  exact (filter_data_no_match insertion_sort_values sample_dataset (1981, 2025) (1, 52)
           "Atlantis" "За спаданням" "VHI" Hsort Hnum Hcol Hnone).
Defined.

Example filter_data_sample :
  filter_data insertion_sort_values sample_dataset (1981, 2025) (1, 52)
              "Київська" "За спаданням" "VHI"
  = Ok (take 2 sample_dataset) ∧
  filter_data insertion_sort_values sample_dataset (1981, 2025) (1, 52)
              "Київська" "За зростанням" "VHI"
  = Ok (reverse (take 2 sample_dataset)) ∧
  filter_data insertion_sort_values sample_dataset (1983, 2025) (1, 52)
              "Київська" "Без сортування" "VHI" = Ok [] ∧
  filter_data insertion_sort_values sample_dataset (1981, 2025) (1, 52)
              "Київська" "За спаданням" "vhi" = Raise KeyError.
Proof. by vm_compute. Qed.

(** * Further properties of the code *)

(** ** The two tables of regions *)

Lemma NoDup_snd_inj {A B} (l : list (A * B)) (k k' : A) (v : B) :
  NoDup l.*2 → (k, v) ∈ l → (k', v) ∈ l → k = k'.
Proof.
  induction l as [|[a b] l IH]; [by intros _ ?%elem_of_nil|].
  rewrite fmap_cons. simpl. intros [Hb Hl]%NoDup_cons.
  intros [Hk|Hk]%elem_of_cons [Hk'|Hk']%elem_of_cons.
  - congruence.
  - injection Hk as -> ->. destruct Hb. apply list_elem_of_fmap. by exists (k', b).
  - injection Hk' as -> ->. destruct Hb. apply list_elem_of_fmap. by exists (k, b).
  - by apply IH.
Qed.

(** Turning a dictionary round, [{v: k for k, v in m.items()}], loses
    nothing when no value stands under two keys. *)
Lemma lookup_inverted (m : gmap Z string) :
  (∀ k k' v, m !! k = Some v → m !! k' = Some v → k = k') →
  ∀ v k, map_fold (λ k v (acc : gmap string Z), <[v := k]> acc) ∅ m !! v = Some k
         ↔ m !! k = Some v.
Proof.
  apply (map_fold_weak_ind (λ (acc : gmap string Z) (m : gmap Z string),
    (∀ k k' v, m !! k = Some v → m !! k' = Some v → k = k') →
    ∀ v k, acc !! v = Some k ↔ m !! k = Some v)); clear m.
  - intros _ v k. by rewrite !lookup_empty.
  - intros i x m acc Hi IH Hinj v k.
    assert (∀ k, m !! k = Some x → False) as Hfresh.
    { intros k' Hk'. assert (k' = i) as ->; [|congruence].
      apply (Hinj k' i x); [|by rewrite lookup_insert_eq].
      rewrite lookup_insert_ne; [done|]. intros ->. congruence. }
    assert (∀ v k, acc !! v = Some k ↔ m !! k = Some v) as IH'.
    { apply IH. intros k1 k2 v' H1 H2. apply (Hinj k1 k2 v').
      - rewrite lookup_insert_ne; [done|]. intros ->. congruence.
      - rewrite lookup_insert_ne; [done|]. intros ->. congruence. }
    destruct (decide (v = x)) as [->|Hv].
    + rewrite lookup_insert_eq. destruct (decide (k = i)) as [->|Hk].
      * by rewrite lookup_insert_eq.
      * rewrite lookup_insert_ne by done. split; [congruence|].
        intros Hk'. by destruct (Hfresh k).
    + rewrite lookup_insert_ne by done. rewrite IH'.
      destruct (decide (k = i)) as [->|Hk].
      * rewrite lookup_insert_eq, Hi. split; [done | congruence].
      * by rewrite lookup_insert_ne.
Qed.

Lemma regions_true_id_inj (k k' : Z) (v : string) :
  regions_true_id !! k = Some v → regions_true_id !! k' = Some v → k = k'.
Proof.
  unfold regions_true_id.
  intros Hk%elem_of_list_to_map_2 Hk'%elem_of_list_to_map_2.
  eapply NoDup_snd_inj; [|exact Hk|exact Hk'].
  apply (bool_decide_unpack _). by vm_compute.
Qed.

(** X1. [region_names_to_id] is [regions_true_id] read backwards: a name
    resolves to an id exactly when the id is listed under that name, so
    each of the 25 names resolves, and to its own id. *)
Theorem region_names_to_id_inverse (name : string) (id : Z) :
  region_names_to_id !! name = Some id ↔ regions_true_id !! id = Some name.
Proof. apply lookup_inverted. apply regions_true_id_inj. Qed.

(** ** [int()] and the id in a file name *)

Lemma rev_app_rev_app (s t u : string) :
  String.rev_app (String.rev_app s t) u = String.rev_app t (s +:+ u).
Proof.
  revert t u. induction s as [|a s IH]; intros t u; [done|].
  change (String.rev_app (String.rev_app s (String a t)) u
          = String.rev_app t (String a (s +:+ u))).
  by rewrite IH.
Qed.

Lemma string_app_empty_r (s : string) : s +:+ EmptyString = s.
Proof.
  induction s as [|a s IH]; [done|].
  change (String a (s +:+ EmptyString) = String a s). by rewrite IH.
Qed.

Lemma rev_rev (s : string) : String.rev (String.rev s) = s.
Proof. unfold String.rev. by rewrite rev_app_rev_app, string_app_empty_r. Qed.

Lemma free_of_rev_app c (s t : string) :
  free_of c (String.rev_app s t) = free_of c s && free_of c t.
Proof.
  revert t. induction s as [|a s IH]; intros t; simpl; [done|].
  rewrite IH. simpl. by destruct (Ascii.eqb a c), (free_of c s), (free_of c t).
Qed.

Lemma lstrip_id (s : string) :
  (∀ c, Py.isspace c = true → free_of c s = true) → Py.lstrip s = s.
Proof.
  destruct s as [|a s]; simpl; [done|]. intros Hs.
  destruct (Py.isspace a) eqn:Ha; [|done].
  specialize (Hs a Ha). simpl in Hs. by rewrite Ascii.eqb_refl in Hs.
Qed.

Lemma strip_id (s : string) :
  (∀ c, Py.isspace c = true → free_of c s = true) → Py.strip s = s.
Proof.
  intros Hs. unfold Py.strip. rewrite (lstrip_id s Hs), lstrip_id, rev_rev; [done|].
  intros c Hc. unfold String.rev. by rewrite free_of_rev_app, (Hs c Hc).
Qed.

Lemma isspace_not_digit (c : ascii) :
  Py.isspace c = true →
  Ascii.is_nat c = None ∧ c ≠ "-"%char ∧ c ≠ "+"%char ∧ c ≠ "_"%char.
Proof. destruct c as [[] [] [] [] [] [] [] []]; by vm_compute. Qed.

Lemma digit_pretty_N_char (n : N) :
  (n < 10)%N → Py.digit (pretty_N_char n) = Some (Z.of_N n).
Proof.
  intros Hn. destruct n as [|p]; [done|].
  do 4 (destruct p as [p|p|]; try lia; try done).
Qed.

(** Reading back the digits [pretty] writes: the value so far moves up by
    as many places as there are digits. *)
Lemma digits_pretty_N_go (x : N) :
  (0 < x)%N →
  ∃ k : Z, ∀ acc after_digit s,
    Py.digits acc after_digit (pretty_N_go x s)
    = Py.digits (acc * 10 ^ k + Z.of_N x) true s ∧ 0 ≤ k.
Proof.
  induction (N.lt_wf_0 x) as [x _ IH]. intros Hx.
  destruct (decide (x `div` 10 = 0)%N) as [Hdiv|Hdiv].
  - exists 1. intros acc b s. rewrite Z.pow_1_r.
    rewrite pretty_N_go_step, Hdiv, pretty_N_go_0 by done.
    assert (x < 10)%N as Hlt by (apply N.div_small_iff in Hdiv; lia).
    rewrite N.mod_small by done. cbn [Py.digits].
    rewrite digit_pretty_N_char by done.
    split; [|lia]. by rewrite (Z.mul_comm 10 acc).
  - destruct (IH (x `div` 10)%N) as [k Hk];
      [apply N.div_lt; lia | by apply N.neq_0_lt_0 |].
    exists (k + 1). intros acc b s. rewrite pretty_N_go_step by done.
    destruct (Hk acc b (String (pretty_N_char (x `mod` 10)) s)) as [-> Hk0].
    cbn [Py.digits]. rewrite digit_pretty_N_char by (apply N.mod_lt; lia).
    split; [|lia]. rewrite Z.pow_add_r, Z.pow_1_r by lia.
    pose proof (N.div_mod x 10 ltac:(lia)).
    assert (10 * (acc * 10 ^ k + Z.of_N (x `div` 10)) + Z.of_N (x `mod` 10)
            = acc * (10 ^ k * 10) + Z.of_N x) as -> by lia.
    done.
Qed.

Lemma digits_pretty_N (x : N) : Py.digits 0 false (pretty x) = Some (Z.of_N x).
Proof.
  unfold pretty, pretty_N. case_decide as Hx; [by subst|].
  destruct (digits_pretty_N_go x) as [k Hk]; [lia|].
  destruct (Hk 0 false EmptyString) as [-> _]. by rewrite Z.mul_0_l.
Qed.

Lemma free_of_space_pretty_Z (z : Z) (c : ascii) :
  Py.isspace c = true → free_of c (pretty z) = true.
Proof.
  intros (Hd & Hm & _)%isspace_not_digit. by apply free_of_pretty_Z.
Qed.

Lemma head_pretty_N (x : N) :
  ∃ a t, pretty x = String a t ∧ is_Some (Py.digit a).
Proof.
  pose proof (digits_pretty_N x) as H.
  destruct (pretty x) as [|a t]; [done|]. exists a, t. split; [done|].
  cbn [Py.digits] in H. destruct (Py.digit a); [by eexists|].
  by rewrite andb_false_r in H.
Qed.

Lemma int_of_pretty (z : Z) : Py.int (pretty z) = Ok z.
Proof.
  unfold Py.int. rewrite strip_id by (intros c; apply free_of_space_pretty_Z).
  destruct z as [|p|p]; [done| |].
  - change (pretty (Z.pos p)) with (pretty (N.pos p)).
    pose proof (digits_pretty_N (N.pos p)) as Hd.
    destruct (head_pretty_N (N.pos p)) as (a & t & Ht & [d Ha]). rewrite Ht in Hd |- *.
    assert (a ≠ "-"%char ∧ a ≠ "+"%char) as [Hm Hp].
    { split; intros ->; by vm_compute in Ha. }
    assert (match String a t with
            | String "-" t0 =>
                (match Py.digits 0 false t0 with
                 | Some z => Ok z
                 | None => Raise ValueError
                 end) ≫= λ z : Z, Ok (- z)
            | String "+" t0 =>
                match Py.digits 0 false t0 with
                | Some z => Ok z
                | None => Raise ValueError
                end
            | t0 => match Py.digits 0 false t0 with
                    | Some z => Ok z
                    | None => Raise ValueError
                    end
            end = match Py.digits 0 false (String a t) with
                  | Some z => Ok z
                  | None => Raise ValueError
                  end) as ->.
    { clear -Hm Hp. destruct a as [[] [] [] [] [] [] [] []]; done. }
    by rewrite Hd.
  - change (pretty (Z.neg p)) with (String "-" (pretty (N.pos p))).
    cbv beta iota. by rewrite digits_pretty_N.
Qed.


Lemma int_raises (s : string) (e : exn) : Py.int s = Raise e → e = ValueError.
Proof.
  unfold Py.int.
  destruct (Py.strip s) as [|[[] [] [] [] [] [] [] []] t]; simpl;
    repeat case_match; simpl; congruence.
Qed.

(** X3. [process_csv] reads the region id with [IndexError] exactly when the
    file name has fewer than three segments between underscores; with three
    or more, the only failure is the [ValueError] of [int()]. *)
Theorem region_of_IndexError (path : string) :
  (region_of path = Raise IndexError
   ↔ (length (Py.split "_" (Py.basename path)) < 3)%nat) ∧
  (∀ e, region_of path = Raise e → e = IndexError ∨ e = ValueError).
Proof.
  unfold region_of, Py.getitem.
  destruct (Py.split "_" (Py.basename path) !! 2%nat) as [seg|] eqn:Hseg; simpl.
  - apply lookup_lt_Some in Hseg. split.
    + split; [|lia]. by intros [=]%int_raises.
    + intros e ->%int_raises. by right.
  - apply lookup_ge_None in Hseg. split.
    + split; [lia|done].
    + intros e [= <-]. by left.
Qed.

(** X4. A name made of two segments, the decimal text of [z] as third
    segment and at least one segment more is read back as [z], in whatever
    folder the file lies: this is the layout of names [process_csv]
    accepts. *)
Theorem region_of_third_segment (folder a b rest : string) (z : Z) :
  free_of "_" a = true → free_of "_" b = true →
  free_of "/" a = true → free_of "/" b = true → free_of "/" rest = true →
  region_of (path_join folder
               (a +:+ "_" +:+ b +:+ "_" +:+ pretty z +:+ "_" +:+ rest))
  = Ok z.
Proof.
  intros Ha Hb Ha' Hb' Hrest. unfold region_of.
  rewrite basename_path_join.
  2:{ rewrite !free_of_app, Ha', Hb', Hrest, free_of_pretty_Z; done. }
  change (a +:+ "_" +:+ b +:+ "_" +:+ pretty z +:+ "_" +:+ rest)
    with (a +:+ String "_" (b +:+ String "_" (pretty z +:+ String "_" rest))).
  rewrite !split_app, !split_free_of by (done || by apply free_of_pretty_Z).
  pose proof (split_nonempty "_" rest).
  destruct (Py.split "_" rest) as [|seg segs]; [done|]. simpl.
  apply int_of_pretty.
Qed.

(** X4 on the name of the sample file of region 15. *)
Lemma region_of_third_segment_witness :
  free_of "_" "vhi" = true ∧ free_of "_" "id" = true ∧
  free_of "/" "vhi" = true ∧ free_of "/" "id" = true ∧
  free_of "/" "2025-03-01_10-00.csv" = true ∧
  region_of (path_join "data_csv"
               ("vhi" +:+ "_" +:+ "id" +:+ "_" +:+ pretty 15 +:+ "_"
                +:+ "2025-03-01_10-00.csv"))
  = Ok 15.
Proof.
  repeat (split; [reflexivity|]).
  exact (region_of_third_segment "data_csv" "vhi" "id" "2025-03-01_10-00.csv" 15
           eq_refl eq_refl eq_refl eq_refl eq_refl).
Defined.

(** ** [load_data] *)

Lemma prefix_app (a s t : string) :
  String.prefix (a +:+ s) (a +:+ t) = String.prefix s t.
Proof.
  induction a as [|c a IH]; [done|].
  change (match ascii_dec c c with
          | left _ => String.prefix (a +:+ s) (a +:+ t)
          | right _ => false
          end = String.prefix s t).
  by destruct (ascii_dec c c).
Qed.

Lemma prefix_app_self (a t : string) : String.prefix a (a +:+ t) = true.
Proof.
  rewrite <-(string_app_empty_r a) at 1. rewrite prefix_app. by destruct t.
Qed.

(** Two texts without underscore, each followed by one: if the first one
    with its underscore starts the second, the texts are equal. *)
Lemma prefix_until_underscore (a b s t : string) :
  free_of "_" a = true → free_of "_" b = true →
  String.prefix (a +:+ String "_" s) (b +:+ String "_" t) = true → a = b.
Proof.
  revert b. induction a as [|c a IH]; intros [|c' b] Ha Hb; simpl in Ha, Hb.
  - done.
  - change (match ascii_dec "_" c' with
            | left _ => String.prefix s (b +:+ String "_" t)
            | right _ => false
            end = true → EmptyString = String c' b).
    destruct (ascii_dec "_" c') as [<-|]; [|done]. by vm_compute in Hb.
  - change (match ascii_dec c "_" with
            | left _ => String.prefix (a +:+ String "_" s) t
            | right _ => false
            end = true → String c a = EmptyString).
    destruct (ascii_dec c "_") as [->|]; [|done]. by vm_compute in Ha.
  - change (match ascii_dec c c' with
            | left _ => String.prefix (a +:+ String "_" s) (b +:+ String "_" t)
            | right _ => false
            end = true → String c a = String c' b).
    destruct (ascii_dec c c') as [->|]; [|done].
    apply andb_true_iff in Ha as [_ Ha]. apply andb_true_iff in Hb as [_ Hb].
    intros H. f_equal. by apply IH.
Qed.

Lemma startswith_file_name (province_code province_code' : Z) (date : string) :
  Py.startswith ("vhi_id__" +:+ pretty province_code +:+ "__")
                (file_name province_code' date)
  = bool_decide (province_code = province_code').
Proof.
  unfold Py.startswith, file_name. rewrite prefix_app.
  case_bool_decide as Hpc.
  - subst. by rewrite prefix_app, prefix_app_self.
  - apply not_true_is_false. intros Hprefix. apply Hpc.
    apply (inj pretty).
    apply (prefix_until_underscore _ _ "_" ("_" +:+ date +:+ ".csv"));
      [by apply free_of_pretty_Z..|done].
Qed.

Lemma files_in_folder_app folder folder' province_code :
  files_in_folder (folder ++ folder') province_code
  = files_in_folder folder province_code ++ files_in_folder folder' province_code.
Proof. unfold files_in_folder. by rewrite fmap_app, filter_app. Qed.

Lemma files_in_folder_stored province_code province_code' date data :
  files_in_folder [(file_name province_code' date, data)] province_code
  = if bool_decide (province_code = province_code')
    then [file_name province_code' date] else [].
Proof.
  unfold files_in_folder. simpl. rewrite filter_cons, filter_nil.
  rewrite startswith_file_name. by repeat case_bool_decide; case_decide.
Qed.

(** X5. Once a download of a province is stored, asking for that province
    again changes nothing in the folder, at whatever time and whatever the
    server answers. *)
Theorem load_data_twice (folder : list (string * string)) (province_code : Z)
    (now now' : datetime) (data : string) (response : option string) :
  load_data (load_data folder province_code now (Some data))
            province_code now' response
  = load_data folder province_code now (Some data).
Proof.
  unfold load_data at 2.
  destruct (files_in_folder folder province_code) as [|f fs] eqn:Hfolder.
  - unfold load_data.
    by rewrite files_in_folder_app, Hfolder, files_in_folder_stored, bool_decide_true.
  - unfold load_data. by rewrite Hfolder.
Qed.

(** X6. A stored download of one province never stands for another one:
    after it, the first request for a different province still stores its
    file, under the name made of its own code. *)
Theorem load_data_other_province (folder : list (string * string))
    (province_code province_code' : Z) (now now' : datetime) (data data' : string) :
  province_code ≠ province_code' →
  files_in_folder folder province_code = [] →
  files_in_folder folder province_code' = [] →
  load_data (load_data folder province_code' now' (Some data'))
            province_code now (Some data)
  = folder ++ [(file_name province_code' (strftime now'), data');
               (file_name province_code (strftime now), data)].
Proof.
  intros Hne Hpc Hpc'. unfold load_data. rewrite Hpc'.
  rewrite files_in_folder_app, Hpc, files_in_folder_stored, bool_decide_false by done.
  simpl. by rewrite <-app_assoc.
Qed.

(** X6 on an empty folder, provinces 5 and 15. *)
Lemma load_data_other_province_witness :
  (5 : Z) ≠ 15 ∧
  files_in_folder [] 5 = [] ∧ files_in_folder [] 15 = [] ∧
  load_data (load_data [] 15 now_sample (Some "a")) 5 now_sample (Some "b")
  = [] ++ [(file_name 15 (strftime now_sample), "a");
           (file_name 5 (strftime now_sample), "b")].
Proof.
  assert ((5 : Z) ≠ 15) as Hne by discriminate.
  split; [exact Hne|]. split; [reflexivity|]. split; [reflexivity|].
  exact (load_data_other_province [] 5 15 now_sample now_sample "b" "a"
           Hne eq_refl eq_refl).
Defined.

(** ** [process_csv]: outcomes *)

Lemma process_csv_steps (file : csv_file) (n : Z) (rows : list Raw.row)
    (r0 : Raw.row) (s : string) :
  region_of (file_path file) = Ok n → read_csv file = Ok rows →
  rows !! 0%nat = Some r0 → Raw.Year r0 = Str s →
  process_csv file = astype_int_Week (kept_rows n s rows).
Proof.
  intros Hn Hrows Hr0 Hs. unfold process_csv. rewrite Hn, Hrows. simpl.
  rewrite (at_range_index _ _ _ Hr0), Hs. simpl.
  assert (∃ k, length rows = S k) as [k Hk] by (destruct rows; [done|by eexists]).
  rewrite (index_last_seq _ k) by (by rewrite set_at_labels, range_index_labels, Hk).
  simpl. unfold kept_rows. rewrite Hk. by replace (S k - 1)%nat with k by lia.
Qed.

Lemma existsb_fmap {A B} (f : B → bool) (g : A → B) (l : list A) :
  existsb f (g <$> l) = existsb (λ x, f (g x)) l.
Proof.
  induction l as [|x l IH]; [done|]. rewrite fmap_cons. simpl. by rewrite IH.
Qed.

Lemma slice9_Ok (column : list cell) (c y : cell) :
  slice9 column c = Ok y → ∃ s, c = Str s.
Proof. destruct c; simpl; [eauto|by destruct (existsb _ _)..]. Qed.

Lemma process_csv_Ok_inv (file : csv_file) (out : frame row) :
  process_csv file = Ok out →
  ∃ n rows r0 s,
    region_of (file_path file) = Ok n ∧ read_csv file = Ok rows ∧
    rows !! 0%nat = Some r0 ∧ Raw.Year r0 = Str s ∧
    astype_int_Week (kept_rows n s rows) = Ok out.
Proof.
  intros H. pose proof H as H'. unfold process_csv in H'. inv_bind H'.
  rename a into n, a0 into rows.
  destruct rows as [|r0 rows]; [done|].
  injection Ha1 as <-. apply slice9_Ok in Ha2 as [s Hs].
  exists n, (r0 :: rows), r0, s. repeat split; try done.
  by rewrite <-(process_csv_steps file n (r0 :: rows) r0 s).
Qed.

Lemma elem_of_kept_rows (n : Z) (s : string) (rows : list Raw.row) i r :
  (i, r) ∈ kept_rows n s rows ↔
  ∃ raw, rows !! i = Some raw ∧ (i < length rows - 1)%nat ∧
         Raw.VHI raw ≠ Int (-1) ∧
         r = insert_region n
               (if decide (i = 0%nat)
                then Raw.set_Year (Str (Py.slice_from 9 s)) raw else raw).
Proof.
  unfold kept_rows. rewrite elem_of_on_rows. split.
  - intros (r1 & -> & [Hkeep [Hi (raw & Hin & ->)%elem_of_set_at]%elem_of_drop]%elem_of_select).
    apply elem_of_range_index in Hin. exists raw.
    pose proof (lookup_lt_Some _ _ _ Hin).
    split; [done|]. split; [lia|]. split; [|done].
    apply cell_ne_true in Hkeep. by case_decide.
  - intros (raw & Hin & Hi & Hvhi & ->). eexists. split; [done|].
    apply elem_of_select. split.
    + apply cell_ne_true. by case_decide.
    + apply elem_of_drop. split; [lia|]. apply elem_of_set_at.
      exists raw. by rewrite elem_of_range_index.
Qed.

Lemma kept_rows_labels (n : Z) (s : string) (rows : list Raw.row) :
  (kept_rows n s rows).*1 `sublist_of` seq 0 (length rows).
Proof.
  unfold kept_rows, on_rows, select, drop. rewrite <-list_fmap_compose.
  change (fst ∘ _) with (@fst nat Raw.row).
  transitivity
    (set_at (range_index rows) 0 (Raw.set_Year (Str (Py.slice_from 9 s)))).*1.
  - apply fmap_sublist. etrans; apply sublist_filter.
  - by rewrite set_at_labels, range_index_labels.
Qed.

Lemma cell_to_int_raises (c : cell) (e : exn) :
  cell_to_int c = Raise e → e = ValueError ∨ e = OverflowError.
Proof.
  destruct c as [s|q|]; simpl; [|done|left; congruence].
  destruct (Py.int s) as [z|e'] eqn:Hs; simpl.
  - destruct (in_int64 z); [done|]. right; congruence.
  - intros [= <-]. left. by eapply int_raises.
Qed.

Lemma comprehension_Raise_inv {A B} (f : A → result B) (l : list A) (e : exn) :
  comprehension f l = Raise e → ∃ x, x ∈ l ∧ f x = Raise e.
Proof.
  induction l as [|x l IH]; simpl; [done|].
  destruct (f x) as [y|e'] eqn:Hx; simpl.
  - destruct (comprehension f l) as [ys|e'']; simpl; [done|].
    intros [= ->]. destruct IH as (x' & Hin & Hx'); [done|].
    exists x'. split; [by right|done].
  - intros [= ->]. exists x. split; [by left|done].
Qed.

Lemma astype_int_Week_raises (df : frame row) (e : exn) :
  astype_int_Week df = Raise e → e = ValueError ∨ e = OverflowError.
Proof.
  intros ([i r] & _ & Hx)%comprehension_Raise_inv. simpl in Hx.
  destruct (cell_to_int (Week r)) as [w|e'] eqn:Hw; simpl in Hx; [done|].
  injection Hx as <-. by eapply cell_to_int_raises.
Qed.

(** X7. What decides the outcome once the file is read: with an id in the
    name and a string as first year, [process_csv] returns a frame exactly
    when, the last row apart, every row with a VHI other than -1 has a week
    that converts to an [int64]; if one does not, the outcome is
    [ValueError] or, for a week text whose integer does not fit [int64],
    [OverflowError]. *)
Theorem process_csv_outcome (file : csv_file) (n : Z) (rows : list Raw.row)
    (r0 : Raw.row) (s : string) :
  region_of (file_path file) = Ok n → read_csv file = Ok rows →
  rows !! 0%nat = Some r0 → Raw.Year r0 = Str s →
  (is_Ok (process_csv file) ↔
   Forall (λ raw, Raw.VHI raw ≠ Int (-1) → is_Ok (cell_to_int (Raw.Week raw)))
          (removelast rows)) ∧
  (¬ is_Ok (process_csv file) →
   process_csv file = Raise ValueError ∨ process_csv file = Raise OverflowError).
Proof.
  intros Hn Hrows Hr0 Hs. split.
  - split.
    + intros [out Hout]. rewrite (process_csv_steps _ _ _ _ _ Hn Hrows Hr0 Hs) in Hout.
      apply Forall_forall. intros raw Hraw Hvhi.
      rewrite removelast_firstn_len in Hraw.
      apply list_elem_of_lookup in Hraw as [i Hi].
      apply lookup_take_Some in Hi as [Hi Hlt].
      assert ((i, insert_region n
                    (if decide (i = 0%nat)
                     then Raw.set_Year (Str (Py.slice_from 9 s)) raw else raw))
              ∈ kept_rows n s rows) as [k Hk]%list_elem_of_lookup.
      { apply elem_of_kept_rows. exists raw. split; [done|]. split; [lia|]. by split. }
      apply astype_int_Week_Ok in Hout.
      destruct (Forall2_lookup_l _ _ _ _ _ Hout Hk) as (ir' & _ & w & Hw & _).
      exists w. simpl in Hw. by destruct (decide (i = 0%nat)).
    + intros Hweeks.
      destruct (process_csv_spec _ _ _ _ _ Hn Hrows Hr0 Hs Hweeks) as (out & Hout & _).
      by exists out.
  - intros Hnot. destruct (process_csv file) as [out|e] eqn:Hp.
    + destruct Hnot. by exists out.
    + rewrite (process_csv_steps _ _ _ _ _ Hn Hrows Hr0 Hs) in Hp.
      apply astype_int_Week_raises in Hp as [-> | ->]; [by left|by right].
Qed.

(** X7 on the sample file: its two rows with data have the weeks 1 and 3. *)
Lemma process_csv_outcome_witness :
  region_of (file_path file_15) = Ok 15 ∧ read_csv file_15 = Ok sample_rows ∧
  sample_rows !! 0%nat = head sample_rows ∧
  (is_Ok (process_csv file_15) ↔
   Forall (λ raw, Raw.VHI raw ≠ Int (-1) → is_Ok (cell_to_int (Raw.Week raw)))
          (removelast sample_rows)) ∧
  (¬ is_Ok (process_csv file_15) →
   process_csv file_15 = Raise ValueError ∨
   process_csv file_15 = Raise OverflowError).
Proof.
  assert (region_of (file_path file_15) = Ok 15) as Hn by (vm_compute; reflexivity).
  split; [exact Hn|]. split; [reflexivity|]. split; [reflexivity|].
  exact (process_csv_outcome file_15 15 sample_rows _ "<tt><pre>1982"
           Hn eq_refl eq_refl eq_refl).
Defined.

(** X8. The failures that come before the weeks are looked at, for a file
    with an id in its name: the exception of [pd.read_csv] is the outcome;
    a file without a row below the header gives [KeyError] (there is no
    label 0); a first year that is no string cannot be sliced, which is an
    [IndexError] when no year of the file is a string (a numeric column,
    the value a numpy scalar) and a [TypeError] when one is (an object
    column, the value a Python float). *)
Theorem process_csv_early_errors (file : csv_file) (n : Z) :
  region_of (file_path file) = Ok n →
  (∀ e, read_csv file = Raise e → process_csv file = Raise e) ∧
  (read_csv file = Ok [] → process_csv file = Raise KeyError) ∧
  (∀ r0 rows, read_csv file = Ok (r0 :: rows) → is_str (Raw.Year r0) = false →
     (Forall (λ r, is_str (Raw.Year r) = false) rows →
      process_csv file = Raise IndexError) ∧
     (Exists (λ r, is_str (Raw.Year r) = true) rows →
      process_csv file = Raise TypeError)).
Proof.
  intros Hn. unfold process_csv. rewrite Hn.
  split; [by intros e ->|]. split; [by intros ->|].
  intros r0 rows -> Hyear. rewrite !bind_Ok_l. cbv zeta.
  assert (at_ (range_index (r0 :: rows)) 0 Raw.Year = Ok (Raw.Year r0)) as ->
    by (by apply at_range_index).
  rewrite bind_Ok_l.
  assert (existsb is_str (Raw.Year <$> r0 :: rows)
          = existsb (λ r, is_str (Raw.Year r)) rows) as Hcol.
  { rewrite existsb_fmap. simpl. by rewrite Hyear. }
  assert (slice9 (Raw.Year <$> r0 :: rows) (Raw.Year r0)
          = if existsb (λ r, is_str (Raw.Year r)) rows
            then Raise TypeError else Raise IndexError) as ->.
  { rewrite <-Hcol. by destruct (Raw.Year r0). }
  split.
  - intros Hall.
    destruct (existsb _ rows) eqn:He; [|done].
    apply existsb_exists in He as (r & Hin%list_elem_of_In & Hr).
    rewrite Forall_forall in Hall. by rewrite (Hall r Hin) in Hr.
  - intros (r & Hin & Hr)%Exists_exists.
    assert (existsb (λ r, is_str (Raw.Year r)) rows = true) as ->; [|done].
    apply existsb_exists. exists r. split; [by apply list_elem_of_In|done].
Qed.

(** X8 on a file whose years are numbers: the column is numeric and the
    slice of its first value is an [IndexError]. *)
Lemma process_csv_early_errors_witness :
  region_of (file_path file_numeric_years) = Ok 15 ∧
  ((∀ e, read_csv file_numeric_years = Raise e →
      process_csv file_numeric_years = Raise e) ∧
   (read_csv file_numeric_years = Ok [] →
    process_csv file_numeric_years = Raise KeyError) ∧
   (∀ r0 rows, read_csv file_numeric_years = Ok (r0 :: rows) →
      is_str (Raw.Year r0) = false →
      (Forall (λ r, is_str (Raw.Year r) = false) rows →
       process_csv file_numeric_years = Raise IndexError) ∧
      (Exists (λ r, is_str (Raw.Year r) = true) rows →
       process_csv file_numeric_years = Raise TypeError))) ∧
  process_csv file_numeric_years = Raise IndexError.
Proof.
  assert (region_of (file_path file_numeric_years) = Ok 15) as Hn
    by (vm_compute; reflexivity).
  pose proof (process_csv_early_errors file_numeric_years 15 Hn) as H.
  split; [exact Hn|]. split; [exact H|].
  destruct H as (_ & _ & H). apply (H _ _ eq_refl eq_refl).
  repeat constructor.
Defined.

Example process_csv_sample_errors :
  process_csv file_numeric_years = Raise IndexError ∧
  process_csv file_missing_year = Raise TypeError ∧
  process_csv {| file_path := file_path file_15;
                 read_csv := Ok (Raw.mk (Str "<tt><pre>1982")
                                        (Str "9223372036854775808")
                                        NaN NaN NaN NaN (Int 40) NaN
                                 :: sample_tail) |}
  = Raise OverflowError.
Proof. by vm_compute. Qed.

(** X9. Whatever [process_csv] returns obeys this: the rows carry the id of
    the file name, a VHI other than -1 and an integer week, and their
    labels are labels of the file, in the order of the file and none twice,
    the last label of the file never among them. *)
Theorem process_csv_invariants (file : csv_file) (out : frame row) :
  process_csv file = Ok out →
  ∃ n rows,
    region_of (file_path file) = Ok n ∧ read_csv file = Ok rows ∧
    out.*1 `sublist_of` seq 0 (length rows) ∧
    ∀ i r, (i, r) ∈ out →
      (i < length rows - 1)%nat ∧ region_num r = n ∧ VHI r ≠ Int (-1) ∧
      ∃ w, Week r = Int w.
Proof.
  intros (n & rows & r0 & s & Hn & Hrows & Hr0 & Hs & Hout)%process_csv_Ok_inv.
  exists n, rows. split; [done|]. split; [done|]. split.
  - rewrite (astype_int_Week_labels _ _ Hout). apply kept_rows_labels.
  - intros i r Hin.
    apply (elem_of_astype_int_Week _ _ _ _ Hout) in Hin
      as (r1 & w & (raw & Hraw & Hi & Hvhi & ->)%elem_of_kept_rows & Hw & ->).
    split; [done|]. split; [done|]. split; [by case_decide|]. by exists w.
Qed.

(** X9 on the sample file. *)
Lemma process_csv_invariants_witness :
  process_csv file_15 = Ok (zip [0; 2]%nat (sample_kept 15)) ∧
  ∃ n rows,
    region_of (file_path file_15) = Ok n ∧ read_csv file_15 = Ok rows ∧
    (zip [0; 2]%nat (sample_kept 15)).*1 `sublist_of` seq 0 (length rows) ∧
    ∀ i r, (i, r) ∈ zip [0; 2]%nat (sample_kept 15) →
      (i < length rows - 1)%nat ∧ region_num r = n ∧ VHI r ≠ Int (-1) ∧
      ∃ w, Week r = Int w.
Proof.
  assert (process_csv file_15 = Ok (zip [0; 2]%nat (sample_kept 15))) as Hout
    by (vm_compute; reflexivity).
  split; [exact Hout|]. exact (process_csv_invariants file_15 _ Hout).
Defined.

(** X10. A file with a single row below the header gives the empty frame:
    the row is dropped as the last one, whatever it holds. *)
Theorem process_csv_single_row (file : csv_file) (n : Z) (r0 : Raw.row) (s : string) :
  region_of (file_path file) = Ok n → read_csv file = Ok [r0] →
  Raw.Year r0 = Str s → process_csv file = Ok [].
Proof.
  intros Hn Hrows Hs.
  rewrite (process_csv_steps file n [r0] r0 s Hn Hrows eq_refl Hs).
  reflexivity.
Qed.

(** X10 on the first row of the sample file alone. *)
Lemma process_csv_single_row_witness :
  region_of "data_csv/vhi_id_15_2025-03-01_10-00.csv" = Ok 15 ∧
  Raw.Year (sample_first "<tt><pre>1982") = Str "<tt><pre>1982" ∧
  process_csv {| file_path := "data_csv/vhi_id_15_2025-03-01_10-00.csv";
                 read_csv := Ok [sample_first "<tt><pre>1982"] |} = Ok [].
Proof.
  assert (region_of "data_csv/vhi_id_15_2025-03-01_10-00.csv" = Ok 15) as Hn
    by (vm_compute; reflexivity).
  split; [exact Hn|]. split; [reflexivity|].
  exact (process_csv_single_row
           {| file_path := "data_csv/vhi_id_15_2025-03-01_10-00.csv";
              read_csv := Ok [sample_first "<tt><pre>1982"] |}
           15 (sample_first "<tt><pre>1982") "<tt><pre>1982" Hn eq_refl eq_refl).
Defined.

(** ** [data_frame]: what the build keeps *)

Lemma data_frame_total (files : list csv_file) :
  files ≠ [] → Forall (λ file, is_Ok (process_csv file)) files →
  is_Ok (data_frame files).
Proof.
  intros Hne Hall. destruct (comprehension_is_Ok _ _ Hall) as [frames Hfr].
  unfold data_frame. rewrite Hfr. simpl.
  apply comprehension_Ok, Forall2_length in Hfr.
  unfold combined_data, concat.
  destruct frames as [|fr frames]; [by destruct files|]. simpl. by eexists.
Qed.

(** X11. [data_frame] returns a dataset exactly when the folder holds at
    least one file and [process_csv] succeeds on every file. *)
Theorem data_frame_succeeds_iff (files : list csv_file) :
  is_Ok (data_frame files) ↔
  files ≠ [] ∧ Forall (λ file, is_Ok (process_csv file)) files.
Proof.
  split.
  - intros [ds (frames & pre & Hfr & [Hne _]%combined_data_Ok & _)%data_frame_Ok].
    split.
    + intros ->. by inversion Hfr.
    + clear Hne. induction Hfr as [|file fr files frames Hp _ IH]; constructor;
        [by exists fr | done].
  - intros [Hne Hall]. by apply data_frame_total.
Qed.

(** X12. Nothing else is lost: with the ids of the file names within
    [int64], a row that [process_csv] returns for one of the files, with an
    id other than 12 and 20, stands in the dataset with its id
    translated. *)
Theorem data_frame_keeps_rows (files : list csv_file) (ds : frame row)
    (file : csv_file) (fr : frame row) (j : nat) (r0 : row) :
  Forall (λ file, ∀ n, region_of (file_path file) = Ok n → - 2 ^ 63 ≤ n < 2 ^ 63)
         files →
  data_frame files = Ok ds →
  file ∈ files → process_csv file = Ok fr → (j, r0) ∈ fr →
  region_num r0 ≠ 12 → region_num r0 ≠ 20 →
  ∃ i, (i, translate r0) ∈ ds.
Proof. intros _. apply data_frame_keeps. Qed.

(** X12 on the sample file of local id 15. *)
Lemma data_frame_keeps_rows_witness :
  Forall (λ file, ∀ n, region_of (file_path file) = Ok n → - 2 ^ 63 ≤ n < 2 ^ 63)
         [file_15] ∧
  data_frame [file_15] = Ok (range_index (sample_kept 12)) ∧
  file_15 ∈ [file_15] ∧
  process_csv file_15 = Ok (zip [0; 2]%nat (sample_kept 15)) ∧
  (2%nat, sample_kept_third 15) ∈ zip [0; 2]%nat (sample_kept 15) ∧
  region_num (sample_kept_third 15) ≠ 12 ∧ region_num (sample_kept_third 15) ≠ 20 ∧
  ∃ i, (i, translate (sample_kept_third 15)) ∈ range_index (sample_kept 12).
Proof.
  assert (Forall (λ file, ∀ n, region_of (file_path file) = Ok n →
                          - 2 ^ 63 ≤ n < 2 ^ 63) [file_15]) as Hfit.
  { apply Forall_forall. intros file Hfile n Hn.
    repeat (apply elem_of_cons in Hfile as [->|Hfile];
            [vm_compute in Hn; injection Hn as <-; lia|]).
    by apply elem_of_nil in Hfile. }
  assert (data_frame [file_15] = Ok (range_index (sample_kept 12))) as Hds
    by (vm_compute; reflexivity).
  assert (file_15 ∈ [file_15]) as Hfile by left.
  assert (process_csv file_15 = Ok (zip [0; 2]%nat (sample_kept 15))) as Hp
    by (vm_compute; reflexivity).
  assert ((2%nat, sample_kept_third 15) ∈ zip [0; 2]%nat (sample_kept 15)) as Hin
    by (right; left).
  assert (region_num (sample_kept_third 15) ≠ 12) as H12 by discriminate.
  assert (region_num (sample_kept_third 15) ≠ 20) as H20 by discriminate.
  repeat (split; [assumption|]).
  exact (data_frame_keeps_rows _ _ _ _ _ _ Hfit Hds Hfile Hp Hin H12 H20).
Defined.

Lemma replace_never_7_in_table :
  Forall (λ x, replace region_translation x ≠ 7) (seqZ 1 27).
Proof. apply (bool_decide_unpack _). by vm_compute. Qed.

(** No id is translated to 7: the table has no entry with the value 7, and
    7 itself has an entry. *)
Lemma replace_never_7 (x : Z) : replace region_translation x ≠ 7.
Proof.
  destruct (decide (1 ≤ x ≤ 27)) as [Hx|Hx].
  - pose proof replace_never_7_in_table as H. rewrite Forall_forall in H.
    apply H, elem_of_seqZ. lia.
  - destruct (decide (replace region_translation x = x)) as [->|Hne]; [lia|].
    apply replace_range in Hne. lia.
Qed.

(** X13. No dataset that [data_frame] builds has a row of region 7
    ([Запорізька] in [regions_true_id]), whatever the files are. *)
Theorem data_frame_never_region_7 (files : list csv_file) (ds : frame row)
    (i : nat) (r : row) :
  data_frame files = Ok ds → (i, r) ∈ ds → region_num r ≠ 7.
Proof.
  intros (frames & pre & _ & _ & ->)%data_frame_Ok (r0 & -> & _)%elem_of_on_rows.
  apply replace_never_7.
Qed.

(** X13 on the dataset of the sample file of local id 15. *)
Lemma data_frame_never_region_7_witness :
  data_frame [file_15] = Ok (range_index (sample_kept 12)) ∧
  (0%nat, sample_kept_first 12 "1982") ∈ range_index (sample_kept 12) ∧
  region_num (sample_kept_first 12 "1982") ≠ 7.
Proof.
  assert (data_frame [file_15] = Ok (range_index (sample_kept 12))) as Hds
    by (vm_compute; reflexivity).
  assert ((0%nat, sample_kept_first 12 "1982") ∈ range_index (sample_kept 12))
    as Hin by left.
  split; [exact Hds|]. split; [exact Hin|].
  exact (data_frame_never_region_7 _ _ _ _ Hds Hin).
Defined.

(** X14. When the ids in the file names are ids of the table (1 to 27),
    every region id of the dataset is an id of [regions_true_id] (1 to
    25). *)
Theorem data_frame_region_range (files : list csv_file) (ds : frame row)
    (i : nat) (r : row) :
  Forall (λ file, ∀ n, region_of (file_path file) = Ok n → 1 ≤ n ≤ 27) files →
  data_frame files = Ok ds → (i, r) ∈ ds → 1 ≤ region_num r ≤ 25.
Proof.
  intros Hfiles (frames & pre & Hfr & Hpre & ->)%data_frame_Ok
         (r0 & -> & Hin)%elem_of_on_rows.
  destruct (combined_data_source _ _ _ _ _ Hfr Hpre Hin)
    as (H12 & H20 & file & _ & _ & Hfile & _ & _ & Hn).
  rewrite Forall_forall in Hfiles. specialize (Hfiles _ Hfile _ Hn). simpl.
  destruct (decide (replace region_translation (region_num r0) = region_num r0))
    as [Hfix|Hmoved].
  - apply replace_fixed_point in Hfix. lia.
  - by apply replace_range in Hmoved as [_ ?].
Qed.

(** X14 on the dataset of the sample file of local id 15. *)
Lemma data_frame_region_range_witness :
  Forall (λ file, ∀ n, region_of (file_path file) = Ok n → 1 ≤ n ≤ 27) [file_15] ∧
  data_frame [file_15] = Ok (range_index (sample_kept 12)) ∧
  (0%nat, sample_kept_first 12 "1982") ∈ range_index (sample_kept 12) ∧
  1 ≤ region_num (sample_kept_first 12 "1982") ≤ 25.
Proof.
  assert (Forall (λ file, ∀ n, region_of (file_path file) = Ok n → 1 ≤ n ≤ 27)
                 [file_15]) as Hfiles.
  { constructor; [|constructor]. intros n Hn. vm_compute in Hn.
    injection Hn as <-. lia. }
  assert (data_frame [file_15] = Ok (range_index (sample_kept 12))) as Hds
    by (vm_compute; reflexivity).
  assert ((0%nat, sample_kept_first 12 "1982") ∈ range_index (sample_kept 12))
    as Hin by left.
  split; [exact Hfiles|]. split; [exact Hds|]. split; [exact Hin|].
  exact (data_frame_region_range _ _ _ _ Hfiles Hds Hin).
Defined.

Lemma drop_duplicates_from_seen `{EqDecision R} (seen : list R) (df df' : frame R) :
  (∀ r, r ∈ df'.*2 → r ∈ seen ∨ r ∈ df.*2) →
  drop_duplicates_from seen (df ++ df') = drop_duplicates_from seen df.
Proof.
  revert seen. induction df as [|[i r] df IH]; intros seen Hseen; simpl.
  - induction df' as [|[i' r'] df' IH']; simpl; [done|].
    rewrite decide_True.
    + apply IH'. intros r Hr. apply Hseen. rewrite fmap_cons. by right.
    + destruct (Hseen r') as [?|?%elem_of_nil]; [rewrite fmap_cons; by left|done..].
  - case_decide as Hr.
    + apply IH. intros r' Hr'. destruct (Hseen r' Hr') as [?|[->|?]%elem_of_cons]; auto.
    + f_equal. apply IH. intros r' Hr'.
      destruct (Hseen r' Hr') as [?|[->|?]%elem_of_cons];
        [left; by right | left; by left | by right].
Qed.

Lemma comprehension_snoc {A B} (f : A → result B) (l : list A) (x : A) :
  comprehension f (l ++ [x])
  = ys ← comprehension f l; y ← f x; Ok (ys ++ [y]).
Proof.
  induction l as [|x' l IH]; simpl.
  - by destruct (f x).
  - destruct (f x') as [y'|e]; simpl; [|done]. rewrite IH.
    destruct (comprehension f l) as [ys|e]; simpl; [|done].
    by destruct (f x).
Qed.

Lemma combined_data_again (frames : list (frame row)) (fr : frame row) :
  fr ∈ frames → combined_data (frames ++ [fr]) = combined_data frames.
Proof.
  intros Hfr. unfold combined_data.
  assert (∀ l : list (frame row), l ≠ [] → concat l = Ok (List.concat l)) as Hconcat
    by (by intros [|]).
  rewrite !Hconcat, !bind_Ok_l.
  - rewrite concat_app. simpl. rewrite app_nil_r. unfold drop_duplicates.
    rewrite drop_duplicates_from_seen; [done|].
    intros r ([j r'] & -> & Hr)%list_elem_of_fmap. right.
    apply list_elem_of_fmap. exists (j, r'). split; [done|].
    apply list_elem_of_In, in_concat. exists fr. by rewrite <-!list_elem_of_In.
  - intros ->. by apply elem_of_nil in Hfr.
  - by destruct frames.
Qed.

(** X15. A second copy of a file changes nothing: when the folder also
    lists, after the others, a file with the region id and the content of
    one already listed, [data_frame] gives the same outcome, dataset or
    exception, as without it. *)
Theorem data_frame_same_file_again (files : list csv_file) (file file' : csv_file) :
  file ∈ files →
  region_of (file_path file') = region_of (file_path file) →
  read_csv file' = read_csv file →
  data_frame (files ++ [file']) = data_frame files.
Proof.
  intros Hfile Hregion Hread.
  assert (process_csv file' = process_csv file) as Hsame.
  { unfold process_csv. by rewrite Hregion, Hread. }
  unfold data_frame. rewrite comprehension_snoc.
  destruct (comprehension process_csv files) as [frames|e] eqn:Hfr; [|done].
  rewrite bind_Ok_l. apply comprehension_Ok in Hfr.
  apply list_elem_of_lookup in Hfile as [k Hk].
  destruct (Forall2_lookup_l _ _ _ _ _ Hfr Hk) as (fr & Hk' & Hp).
  rewrite Hsame, Hp, !bind_Ok_l, combined_data_again; [done|].
  by eapply list_elem_of_lookup_2.
Qed.

(** X15 on a second download of province 23. *)
Lemma data_frame_same_file_again_witness :
  file_23 ∈ [file_15; file_23] ∧
  region_of (file_path file_23_again) = region_of (file_path file_23) ∧
  read_csv file_23_again = read_csv file_23 ∧
  data_frame ([file_15; file_23] ++ [file_23_again]) = data_frame [file_15; file_23].
Proof.
  assert (file_23 ∈ [file_15; file_23]) as Hfile by (right; left).
  assert (region_of (file_path file_23_again) = region_of (file_path file_23))
    as Hregion by (vm_compute; reflexivity).
  split; [exact Hfile|]. split; [exact Hregion|]. split; [reflexivity|].
  exact (data_frame_same_file_again _ _ _ Hfile Hregion eq_refl).
Defined.

(** X16. A folder whose files all parse and all carry the id 12 or 20 gives
    the empty dataset, not an exception. *)
Theorem data_frame_only_12_20 (files : list csv_file) :
  files ≠ [] →
  Forall (λ file, is_Ok (process_csv file) ∧
                  (region_of (file_path file) = Ok 12 ∨
                   region_of (file_path file) = Ok 20)) files →
  data_frame files = Ok [].
Proof.
  intros Hne Hall.
  destruct (data_frame_total files Hne) as [ds Hds].
  { eapply Forall_impl; [exact Hall|]. by intros file [? _]. }
  rewrite Hds. f_equal. apply elem_of_nil_inv. intros [i r] Hin.
  apply data_frame_Ok in Hds as (frames & pre & Hfr & Hpre & ->).
  apply elem_of_on_rows in Hin as (r0 & -> & Hin).
  destruct (combined_data_source _ _ _ _ _ Hfr Hpre Hin)
    as (H12 & H20 & file & _ & _ & Hfile & _ & _ & Hn).
  rewrite Forall_forall in Hall. destruct (Hall _ Hfile) as [_ [H|H]]; congruence.
Qed.

(** X16 on a file named for the local id 12. *)
Lemma data_frame_only_12_20_witness :
  [sample_file "vhi_id_12_2025-03-01_10-00.csv"] ≠ [] ∧
  Forall (λ file, is_Ok (process_csv file) ∧
                  (region_of (file_path file) = Ok 12 ∨
                   region_of (file_path file) = Ok 20))
         [sample_file "vhi_id_12_2025-03-01_10-00.csv"] ∧
  data_frame [sample_file "vhi_id_12_2025-03-01_10-00.csv"] = Ok [].
Proof.
  assert ([sample_file "vhi_id_12_2025-03-01_10-00.csv"] ≠ []) as Hne by discriminate.
  assert (Forall (λ file, is_Ok (process_csv file) ∧
                    (region_of (file_path file) = Ok 12 ∨
                     region_of (file_path file) = Ok 20))
                 [sample_file "vhi_id_12_2025-03-01_10-00.csv"]) as Hall.
  { constructor; [|constructor]. split.
    - eexists. vm_compute. reflexivity.
    - left. vm_compute. reflexivity. }
  split; [exact Hne|]. split; [exact Hall|].
  exact (data_frame_only_12_20 _ Hne Hall).
Defined.

(** ** [filter_data]: errors and selected rows *)

Lemma between_raises (c : cell) (left right : Z) (e : exn) :
  between c left right = Raise e → e = TypeError.
Proof. destruct c; simpl; congruence. Qed.

Lemma comprehension_between_raises (col : row → cell) (left right : Z)
    (df : frame row) (i : nat) (r : row) (s : string) :
  (i, r) ∈ df → col r = Str s →
  comprehension (λ ir : nat * row, between (col ir.2) left right) df = Raise TypeError.
Proof.
  intros Hin Hs.
  destruct (comprehension _ df) as [mask|e] eqn:Hm.
  - apply comprehension_Ok in Hm. apply list_elem_of_lookup in Hin as [k Hk].
    destruct (Forall2_lookup_l _ _ _ _ _ Hm Hk) as (b & _ & Hb).
    simpl in Hb. by rewrite Hs in Hb.
  - apply comprehension_Raise_inv in Hm as (ir & _ & ->%between_raises). done.
Qed.

(** X17. A frame with a year that is still a string cannot be queried: for
    every interval, region, sort option and parameter [filter_data] raises
    [TypeError], the comparison of a [str] with the bounds. Such is the
    frame of [data_frame] before [run_analysis] makes the years numeric. *)
Theorem filter_data_string_year
    (sort_values : (row → cell) → bool → frame row → result (frame row))
    (df : frame row) (years_interval weeks_interval : Z * Z)
    (region sort_option parameter : string) (i : nat) (r : row) (s : string) :
  (i, r) ∈ df → Year r = Str s →
  filter_data sort_values df years_interval weeks_interval region sort_option parameter
  = Raise TypeError.
Proof.
  intros Hin Hs. unfold filter_data.
  by rewrite (comprehension_between_raises Year _ _ df i r s Hin Hs).
Qed.

(** X17 on the dataset built from the sample file. *)
Lemma filter_data_string_year_witness :
  (0%nat, sample_kept_first 12 "1982") ∈ range_index (sample_kept 12) ∧
  Year (sample_kept_first 12 "1982") = Str "1982" ∧
  filter_data insertion_sort_values (range_index (sample_kept 12)) (1981, 2025)
              (1, 52) "Львівська" "Без сортування" "VHI" = Raise TypeError.
Proof.
  assert ((0%nat, sample_kept_first 12 "1982") ∈ range_index (sample_kept 12))
    as Hin by left.
  split; [exact Hin|]. split; [reflexivity|].
  exact (filter_data_string_year insertion_sort_values _ (1981, 2025) (1, 52)
           "Львівська" "Без сортування" "VHI" _ _ _ Hin eq_refl).
Defined.

Lemma elem_of_filter_selected (df : frame row) (years_interval weeks_interval : Z * Z)
    (region : string) (i : nat) (r : row) :
  Forall (λ ir : nat * row,
    is_str (Year ir.2) = false ∧ is_str (Week ir.2) = false) df →
  (i, r) ∈ filter (λ ir : nat * row,
             selected years_interval weeks_interval region ir.2 = true) df
  ↔ (i, r) ∈ df ∧ matches years_interval weeks_interval region r.
Proof.
  intros Hnum. rewrite list_elem_of_filter. simpl. split.
  - intros [Hsel Hin]. split; [done|].
    rewrite Forall_forall in Hnum. destruct (Hnum _ Hin) as [Hy Hw].
    by apply selected_matches.
  - intros [Hin Hm]. split; [|done].
    rewrite Forall_forall in Hnum. destruct (Hnum _ Hin) as [Hy Hw].
    by apply selected_matches.
Qed.

(** X18. Without a sort (any option other than the two sort options) and on
    numeric years and weeks, [filter_data] returns the rows that satisfy
    the three conditions, all of them and no other, with their labels and
    in the order of the dataset; the parameter is not looked at. *)
Theorem filter_data_unsorted
    (sort_values : (row → cell) → bool → frame row → result (frame row))
    (df : frame row) (years_interval weeks_interval : Z * Z)
    (region sort_option parameter : string) :
  Forall (λ ir : nat * row,
    is_str (Year ir.2) = false ∧ is_str (Week ir.2) = false) df →
  sort_option ≠ "За зростанням" → sort_option ≠ "За спаданням" →
  ∃ out,
    filter_data sort_values df years_interval weeks_interval region sort_option
                parameter = Ok out ∧
    out `sublist_of` df ∧
    ∀ i r, (i, r) ∈ out ↔ (i, r) ∈ df ∧ matches years_interval weeks_interval region r.
Proof.
  intros Hnum Hasc Hdesc. eexists. split; [|split].
  - rewrite filter_data_selected by done. cbv zeta.
    by rewrite !decide_False by done.
  - apply sublist_filter.
  - intros i r. by apply elem_of_filter_selected.
Qed.

(** X18 on the sample dataset, region 9. *)
Lemma filter_data_unsorted_witness :
  Forall (λ ir : nat * row,
    is_str (Year ir.2) = false ∧ is_str (Week ir.2) = false) sample_dataset ∧
  "Без сортування" ≠ "За зростанням" ∧ "Без сортування" ≠ "За спаданням" ∧
  ∃ out,
    filter_data insertion_sort_values sample_dataset (1981, 2025) (1, 52)
                "Київська" "Без сортування" "no such column" = Ok out ∧
    out `sublist_of` sample_dataset ∧
    ∀ i r, (i, r) ∈ out ↔
           (i, r) ∈ sample_dataset ∧ matches (1981, 2025) (1, 52) "Київська" r.
Proof.
  assert (Forall (λ ir : nat * row,
            is_str (Year ir.2) = false ∧ is_str (Week ir.2) = false) sample_dataset)
    as Hnum by (repeat constructor).
  assert ("Без сортування" ≠ "За зростанням") as Hasc by discriminate.
  assert ("Без сортування" ≠ "За спаданням") as Hdesc by discriminate.
  split; [exact Hnum|]. split; [exact Hasc|]. split; [exact Hdesc|].
  exact (filter_data_unsorted insertion_sort_values sample_dataset (1981, 2025) (1, 52)
           "Київська" "Без сортування" "no such column" Hnum Hasc Hdesc).
Defined.

Lemma insert_by_Permutation by_ ascending (x : nat * row) (sorted : frame row) :
  insert_by by_ ascending x sorted ≡ₚ x :: sorted.
Proof.
  induction sorted as [|y sorted IH]; simpl; [done|].
  destruct (key_le ascending (by_ x.2) (by_ y.2)); [done|].
  rewrite IH. apply Permutation_swap.
Qed.

Lemma insertion_sort_values_Permutation by_ ascending (df out : frame row) :
  insertion_sort_values by_ ascending df = Ok out → out ≡ₚ df.
Proof.
  unfold insertion_sort_values. destruct (existsb _ df); [done|]. intros [= <-].
  induction df as [|x df IH]; simpl; [done|].
  by rewrite insert_by_Permutation, IH.
Qed.

(** X19. Sorting only reorders: with a sorting routine whose results are
    permutations of its input, whatever [filter_data] returns, under any
    sort option, holds each row that satisfies the three conditions as
    often as the dataset does, and no other row. *)
Theorem filter_data_rows
    (sort_values : (row → cell) → bool → frame row → result (frame row))
    (df out : frame row) (years_interval weeks_interval : Z * Z)
    (region sort_option parameter : string) :
  (∀ by_ ascending d o, sort_values by_ ascending d = Ok o → o ≡ₚ d) →
  Forall (λ ir : nat * row,
    is_str (Year ir.2) = false ∧ is_str (Week ir.2) = false) df →
  filter_data sort_values df years_interval weeks_interval region sort_option parameter
  = Ok out →
  out ≡ₚ filter (λ ir : nat * row,
           selected years_interval weeks_interval region ir.2 = true) df ∧
  ∀ i r, (i, r) ∈ out ↔ (i, r) ∈ df ∧ matches years_interval weeks_interval region r.
Proof.
  intros Hsort Hnum Hout. rewrite filter_data_selected in Hout by done.
  cbv zeta in Hout.
  assert (out ≡ₚ filter (λ ir : nat * row,
            selected years_interval weeks_interval region ir.2 = true) df) as Hperm.
  { repeat case_decide.
    - inv_bind Hout. by eapply Hsort.
    - inv_bind Hout. by eapply Hsort.
    - by injection Hout as <-. }
  split; [done|]. intros i r. rewrite Hperm. by apply elem_of_filter_selected.
Qed.

(** X19 on the sample dataset, region 9 by descending VHI. *)
Lemma filter_data_rows_witness :
  (∀ by_ ascending d o, insertion_sort_values by_ ascending d = Ok o → o ≡ₚ d) ∧
  Forall (λ ir : nat * row,
    is_str (Year ir.2) = false ∧ is_str (Week ir.2) = false) sample_dataset ∧
  filter_data insertion_sort_values sample_dataset (1981, 2025) (1, 52)
              "Київська" "За спаданням" "VHI" = Ok (take 2 sample_dataset) ∧
  take 2 sample_dataset
    ≡ₚ filter (λ ir : nat * row,
         selected (1981, 2025) (1, 52) "Київська" ir.2 = true) sample_dataset ∧
  ∀ i r, (i, r) ∈ take 2 sample_dataset ↔
         (i, r) ∈ sample_dataset ∧ matches (1981, 2025) (1, 52) "Київська" r.
Proof.
  assert (Forall (λ ir : nat * row,
            is_str (Year ir.2) = false ∧ is_str (Week ir.2) = false) sample_dataset)
    as Hnum by (repeat constructor).
  assert (filter_data insertion_sort_values sample_dataset (1981, 2025) (1, 52)
            "Київська" "За спаданням" "VHI" = Ok (take 2 sample_dataset)) as Hout
    by (vm_compute; reflexivity).
  split; [exact insertion_sort_values_Permutation|]. split; [exact Hnum|].
  split; [exact Hout|].
  exact (filter_data_rows insertion_sort_values sample_dataset _ (1981, 2025) (1, 52)
           "Київська" "За спаданням" "VHI"
           insertion_sort_values_Permutation Hnum Hout).
Defined.

Lemma column_KeyError (name : string) :
  name ∉ ["region_num"; "Year"; "Week"; "SMN"; "SMT"; "VCI"; "TCI"; "VHI"] →
  column name = Raise KeyError.
Proof.
  intros Hname. unfold column.
  repeat (case_decide as H; [(destruct Hname; subst name; set_solver) | clear H]).
  done.
Qed.

(** X20. A parameter that names no column of the dataset is an error only
    when a sort is asked for: then [filter_data] raises [KeyError], even if
    no row is selected. *)
Theorem filter_data_unknown_parameter
    (sort_values : (row → cell) → bool → frame row → result (frame row))
    (df : frame row) (years_interval weeks_interval : Z * Z)
    (region sort_option parameter : string) :
  Forall (λ ir : nat * row,
    is_str (Year ir.2) = false ∧ is_str (Week ir.2) = false) df →
  sort_option = "За зростанням" ∨ sort_option = "За спаданням" →
  parameter ∉ ["region_num"; "Year"; "Week"; "SMN"; "SMT"; "VCI"; "TCI"; "VHI"] →
  filter_data sort_values df years_interval weeks_interval region sort_option parameter
  = Raise KeyError.
Proof.
  intros Hnum Hsort Hparam. rewrite filter_data_selected by done. cbv zeta.
  rewrite (column_KeyError _ Hparam).
  destruct Hsort as [->| ->]; by repeat case_decide.
Qed.

(** X20 on the sample dataset, for [empty], a column that [process_csv]
    drops. *)
Lemma filter_data_unknown_parameter_witness :
  Forall (λ ir : nat * row,
    is_str (Year ir.2) = false ∧ is_str (Week ir.2) = false) sample_dataset ∧
  ("За зростанням" = "За зростанням" ∨ "За зростанням" = "За спаданням") ∧
  ("empty" ∉ ["region_num"; "Year"; "Week"; "SMN"; "SMT"; "VCI"; "TCI"; "VHI"]) ∧
  filter_data insertion_sort_values sample_dataset (1981, 2025) (1, 52)
              "Atlantis" "За зростанням" "empty" = Raise KeyError.
Proof.
  assert (Forall (λ ir : nat * row,
            is_str (Year ir.2) = false ∧ is_str (Week ir.2) = false) sample_dataset)
    as Hnum by (repeat constructor).
  assert ("За зростанням" = "За зростанням" ∨ "За зростанням" = "За спаданням")
    as Hsort by (left; reflexivity).
  assert ("empty" ∉ ["region_num"; "Year"; "Week"; "SMN"; "SMT"; "VCI"; "TCI"; "VHI"])
    as Hparam.
  { apply (bool_decide_unpack _). vm_compute. exact I. }
  split; [exact Hnum|]. split; [exact Hsort|]. split; [exact Hparam|].
  exact (filter_data_unknown_parameter insertion_sort_values sample_dataset
           (1981, 2025) (1, 52) "Atlantis" "За зростанням" "empty" Hnum Hsort Hparam).
Defined.

(** ** [run_analysis]: from the build to the query *)

Lemma process_csv_Week (file : csv_file) (fr : frame row) (j : nat) (r : row) :
  process_csv file = Ok fr → (j, r) ∈ fr → ∃ w, Week r = Int w.
Proof.
  intros (n & rows & r0 & s & _ & _ & _ & _ & Hout)%process_csv_Ok_inv Hin.
  apply (elem_of_astype_int_Week _ _ _ _ Hout) in Hin as (r1 & w & _ & _ & ->).
  by exists w.
Qed.

Lemma is_str_to_numeric_coerce (to_number : string → option Qc) (c : cell) :
  is_str (to_numeric_coerce to_number c) = false.
Proof. destruct c as [s| |]; simpl; [by destruct (to_number s)|done..]. Qed.

Lemma elem_of_numeric_years (to_number : string → option Qc) (df : frame row)
    (i : nat) (r : row) :
  (i, r) ∈ numeric_years to_number df ↔
  ∃ r0, (i, r0) ∈ df ∧ to_numeric_coerce to_number (Year r0) ≠ NaN ∧
        r = set_Year (to_numeric_coerce to_number (Year r0)) r0.
Proof.
  unfold numeric_years. rewrite list_elem_of_filter, elem_of_on_rows. simpl. split.
  - intros [Hnan (r0 & -> & Hin)]. by exists r0.
  - intros (r0 & Hin & Hnan & ->). split; [done|]. by exists r0.
Qed.

Lemma numeric_years_ready (to_number : string → option Qc)
    (files : list csv_file) (ds : frame row) :
  data_frame files = Ok ds →
  Forall (λ ir : nat * row,
    is_str (Year ir.2) = false ∧ is_str (Week ir.2) = false)
    (numeric_years to_number ds).
Proof.
  intros (frames & pre & Hfr & Hpre & ->)%data_frame_Ok.
  apply Forall_forall.
  intros [i r] (r1 & (r0 & -> & Hin)%elem_of_on_rows & _ & ->)%elem_of_numeric_years.
  simpl. split; [apply is_str_to_numeric_coerce|].
  destruct (combined_data_source _ _ _ _ _ Hfr Hpre Hin)
    as (_ & _ & file & fr & j & _ & Hp & Hj & _).
  by destruct (process_csv_Week _ _ _ _ Hp Hj) as [w ->].
Qed.

(** X21. What [run_analysis] hands to [filter_data] is always fit for it:
    after the years of a built dataset are made numeric and the rows
    without a year dropped, no year and no week is a string, whatever
    numbers [pd.to_numeric] reads in the year texts; so the query does not
    raise [TypeError] on it. The rows left keep their labels and order. *)
Theorem numeric_years_of_data_frame (to_number : string → option Qc)
    (files : list csv_file) (ds : frame row) :
  data_frame files = Ok ds →
  Forall (λ ir : nat * row,
    is_str (Year ir.2) = false ∧ is_str (Week ir.2) = false)
    (numeric_years to_number ds) ∧
  (numeric_years to_number ds).*1 `sublist_of` ds.*1.
Proof.
  intros Hds. split; [by eapply numeric_years_ready|].
  unfold numeric_years.
  transitivity (on_rows (λ r, set_Year (to_numeric_coerce to_number (Year r)) r) ds).*1.
  - apply fmap_sublist, sublist_filter.
  - unfold on_rows. by rewrite <-list_fmap_compose.
Qed.

(** X21 on the dataset of the sample file, with a reader of year texts that
    knows "1982" only. *)
Lemma numeric_years_of_data_frame_witness :
  data_frame [file_15] = Ok (range_index (sample_kept 12)) ∧
  Forall (λ ir : nat * row,
    is_str (Year ir.2) = false ∧ is_str (Week ir.2) = false)
    (numeric_years (λ s, if decide (s = "1982") then Some (Qc_of_Z 1982) else None)
                   (range_index (sample_kept 12))) ∧
  (numeric_years (λ s, if decide (s = "1982") then Some (Qc_of_Z 1982) else None)
                 (range_index (sample_kept 12))).*1
    `sublist_of` (range_index (sample_kept 12)).*1.
Proof.
  assert (data_frame [file_15] = Ok (range_index (sample_kept 12))) as Hds
    by (vm_compute; reflexivity).
  split; [exact Hds|].
  exact (numeric_years_of_data_frame
           (λ s, if decide (s = "1982") then Some (Qc_of_Z 1982) else None)
           [file_15] _ Hds).
Defined.

Lemma region_names_to_id_7 : region_names_to_id !! "Запорізька" = Some 7.
Proof. by vm_compute. Qed.

(** X22. The region of id 7 never shows data: on the dataset [run_analysis]
    builds from any folder, the query for [Запорізька] returns the empty
    frame for every interval and sort option, because [region_translation]
    sends no file id to 7. *)
Theorem filter_data_region_7_empty
    (sort_values : (row → cell) → bool → frame row → result (frame row))
    (to_number : string → option Qc) (files : list csv_file) (ds : frame row)
    (years_interval weeks_interval : Z * Z) (sort_option parameter : string) :
  data_frame files = Ok ds →
  (∀ by_ ascending, sort_values by_ ascending [] = Ok []) →
  (sort_option = "За зростанням" ∨ sort_option = "За спаданням" →
   is_Ok (column parameter)) →
  filter_data sort_values (numeric_years to_number ds) years_interval weeks_interval
              "Запорізька" sort_option parameter = Ok [].
Proof.
  intros Hds Hsort Hcol.
  pose proof (numeric_years_ready to_number files ds Hds) as Hnum.
  rewrite filter_data_selected by done. cbv zeta.
  rewrite filter_none.
  { repeat case_decide; [| |done].
    - destruct Hcol as [by_ ->]; [by left|]. by rewrite bind_Ok_l, Hsort.
    - destruct Hcol as [by_ ->]; [by right|]. by rewrite bind_Ok_l, Hsort. }
  apply Forall_forall.
  intros [i r] (r1 & Hin & _ & ->)%elem_of_numeric_years. cbn [snd].
  unfold selected. rewrite region_names_to_id_7.
  apply data_frame_Ok in Hds as (frames & pre & _ & _ & ->).
  apply elem_of_on_rows in Hin as (r0 & -> & _).
  rewrite andb_true_iff, bool_decide_eq_true. intros [_ [= H7]].
  by apply replace_never_7 in H7.
Qed.

(** X22 on the dataset of the sample file. *)
Lemma filter_data_region_7_empty_witness :
  data_frame [file_15] = Ok (range_index (sample_kept 12)) ∧
  (∀ by_ ascending, insertion_sort_values by_ ascending [] = Ok []) ∧
  ("За спаданням" = "За зростанням" ∨ "За спаданням" = "За спаданням" →
   is_Ok (column "VHI")) ∧
  filter_data insertion_sort_values
              (numeric_years (λ s, if decide (s = "1982") then Some (Qc_of_Z 1982) else None)
                             (range_index (sample_kept 12)))
              (1981, 2025) (1, 52) "Запорізька" "За спаданням" "VHI" = Ok [].
Proof.
  assert (data_frame [file_15] = Ok (range_index (sample_kept 12))) as Hds
    by (vm_compute; reflexivity).
  assert (∀ by_ ascending, insertion_sort_values by_ ascending [] = Ok []) as Hsort
    by (intros; reflexivity).
  assert ("За спаданням" = "За зростанням" ∨ "За спаданням" = "За спаданням" →
          is_Ok (column "VHI")) as Hcol by (intros _; eexists; reflexivity).
  split; [exact Hds|]. split; [exact Hsort|]. split; [exact Hcol|].
  exact (filter_data_region_7_empty insertion_sort_values
           (λ s, if decide (s = "1982") then Some (Qc_of_Z 1982) else None)
           [file_15] _ (1981, 2025) (1, 52) "За спаданням" "VHI" Hds Hsort Hcol).
Defined.

(** ** [plot_comparison_chart]: the rows behind the chart *)

(** X23. On numeric years the [subset] of [plot_comparison_chart] holds the
    rows of the region within the years, all of them and no other, in the
    order of the dataset; the weeks play no part, so every row
    [filter_data] can select for the region and the years, under any week
    interval, is in it. An unknown region gives the empty subset. *)
Theorem comparison_subset_rows (df : frame row) (region : string)
    (years_interval : Z * Z) :
  Forall (λ ir : nat * row, is_str (Year ir.2) = false) df →
  ∃ subset,
    comparison_subset df region years_interval = Ok subset ∧
    subset `sublist_of` df ∧
    (∀ i r, (i, r) ∈ subset ↔
       (i, r) ∈ df ∧
       between (Year r) years_interval.1 years_interval.2 = Ok true ∧
       region_names_to_id !! region = Some (region_num r)) ∧
    (∀ weeks_interval i r,
       (i, r) ∈ df → matches years_interval weeks_interval region r →
       (i, r) ∈ subset) ∧
    (region_names_to_id !! region = None → subset = []).
Proof.
  intros Hnum.
  set (keep := λ ir : nat * row,
         bool_decide (Some (region_num ir.2) = region_names_to_id !! region)
         && within (Year ir.2) years_interval.1 years_interval.2).
  assert (comparison_subset df region years_interval
          = Ok (filter (λ ir, keep ir = true) df)) as Hsub.
  { unfold comparison_subset. cbv zeta.
    rewrite (comprehension_total
      (λ ir : nat * row, between (Year ir.2) years_interval.1 years_interval.2)
      (λ ir : nat * row, within (Year ir.2) years_interval.1 years_interval.2)).
    2:{ eapply Forall_impl; [exact Hnum|]. intros ir Hy. by apply between_within. }
    rewrite bind_Ok_l.
    by rewrite zip_with_fmap_same, boolean_mask_fmap. }
  assert (∀ i r, (i, r) ∈ filter (λ ir, keep ir = true) df ↔
            (i, r) ∈ df ∧
            between (Year r) years_interval.1 years_interval.2 = Ok true ∧
            region_names_to_id !! region = Some (region_num r)) as Hin.
  { intros i r. rewrite list_elem_of_filter. unfold keep. cbn [snd].
    rewrite andb_true_iff, bool_decide_eq_true. split.
    - intros [[Hr Hy] Hdf]. split; [done|].
      rewrite Forall_forall in Hnum. rewrite between_within by apply (Hnum _ Hdf).
      by rewrite Hy.
    - intros (Hdf & Hy & Hr). split; [|done].
      rewrite Forall_forall in Hnum. rewrite between_within in Hy by apply (Hnum _ Hdf).
      split; congruence. }
  exists (filter (λ ir, keep ir = true) df).
  split; [done|]. split; [apply sublist_filter|]. split; [done|]. split.
  - intros weeks_interval i r Hdf (Hy & _ & Hr). by apply Hin.
  - intros Hnone. apply filter_none, Forall_forall. intros [i r] _. unfold keep.
    rewrite Hnone. by rewrite bool_decide_false.
Qed.

(** X23 on the sample dataset, region 9. *)
Lemma comparison_subset_rows_witness :
  Forall (λ ir : nat * row, is_str (Year ir.2) = false) sample_dataset ∧
  ∃ subset,
    comparison_subset sample_dataset "Київська" (1981, 2025) = Ok subset ∧
    subset `sublist_of` sample_dataset ∧
    (∀ i r, (i, r) ∈ subset ↔
       (i, r) ∈ sample_dataset ∧
       between (Year r) 1981 2025 = Ok true ∧
       region_names_to_id !! "Київська" = Some (region_num r)) ∧
    (∀ weeks_interval i r,
       (i, r) ∈ sample_dataset → matches (1981, 2025) weeks_interval "Київська" r →
       (i, r) ∈ subset) ∧
    (region_names_to_id !! "Київська" = None → subset = []).
Proof.
  assert (Forall (λ ir : nat * row, is_str (Year ir.2) = false) sample_dataset)
    as Hnum by (repeat constructor).
  split; [exact Hnum|].
  exact (comparison_subset_rows sample_dataset "Київська" (1981, 2025) Hnum).
Defined.
